(** * summarize-bot: the incremental summarization engine of [main.py]

    A shallow embedding of the keyword extractor, the highlight selector,
    the watermark store access functions and the guild summary run, followed
    by the properties stated in the specification.

    Conventions of the embedding:
    - a Python [str] is a list of code points; the code points are the 256
      values of [ascii] (the Latin-1 range), on which [str.lower],
      [str.isspace]/[str.split] and [str.isalnum] are tabulated as CPython
      computes them;
    - a Python [int] is a [Z]; [len] is [Z.of_nat (length _)];
    - [sorted(..., key=k, reverse=True)] is the stable descending sort;
    - a [dict] whose iteration order is observed is an association list in
      insertion order;
    - a [datetime] is an instant, a number of microseconds as a [Z];
    - the embed built by [create_summary_embed] holds text with code points
      beyond Latin-1, a list of code points as [N];
    - what the libraries and the platform answer ([hmac], UTF-8, the JSON
      and model parsing, [isoformat], the iteration order of a [set], the
      store, the channel histories) is given to the functions as
      collaborators. *)

From Stdlib Require Import String Ascii List ZArith Bool Lia Sorted Permutation Arith.
From Stdlib Require DecimalString.
Import ListNotations.

Set Implicit Arguments.

(** ** Python strings *)

Module PyStr.

Definition str := list ascii.

Definition py (s : string) : str := list_ascii_of_string s.

Definition str_eq_dec : forall a b : str, {a = b} + {a <> b} :=
  list_eq_dec ascii_dec.

Definition code (c : ascii) : nat := nat_of_ascii c.

(** [c.isspace()], which is also the separator test of [str.split()]. *)
Definition isspace (c : ascii) : bool :=
  let n := code c in
  ((9 <=? n) && (n <=? 13)) || ((28 <=? n) && (n <=? 32))
  || (n =? 133) || (n =? 160).

(** [c.isalnum()]. *)
Definition isalnum (c : ascii) : bool :=
  let n := code c in
  ((48 <=? n) && (n <=? 57)) || ((65 <=? n) && (n <=? 90))
  || ((97 <=? n) && (n <=? 122))
  || (n =? 170) || (n =? 178) || (n =? 179) || (n =? 181)
  || (n =? 185) || (n =? 186) || ((188 <=? n) && (n <=? 190))
  || ((192 <=? n) && (n <=? 214)) || ((216 <=? n) && (n <=? 246))
  || (248 <=? n).

(** [c.lower()]. *)
Definition lower_char (c : ascii) : ascii :=
  let n := code c in
  if ((65 <=? n) && (n <=? 90))
     || ((192 <=? n) && (n <=? 214)) || ((216 <=? n) && (n <=? 222))
  then ascii_of_nat (n + 32) else c.

(** [s.lower()]. *)
Definition lower (s : str) : str := map lower_char s.

(** [s.split()]: the maximal runs of non-whitespace characters.  [cur] holds
    the characters of the run being read, last one first. *)
Fixpoint split_from (cur : str) (s : str) : list str :=
  match s with
  | [] => match cur with [] => [] | _ => [rev cur] end
  | c :: s' =>
      if isspace c then
        match cur with
        | [] => split_from [] s'
        | _ => rev cur :: split_from [] s'
        end
      else split_from (c :: cur) s'
  end.

Definition split (s : str) : list str := split_from [] s.

(** [sep.join(l)]. *)
Fixpoint join (sep : str) (l : list str) : str :=
  match l with
  | [] => []
  | [x] => x
  | x :: l' => x ++ sep ++ join sep l'
  end.

End PyStr.

(** ** Python sequences *)

Module PySeq.

Section Slice.
Variable A : Type.

(** [l[:k]]: the first [k] elements, and for a negative [k] all but the
    last [-k]. *)
Definition slice_to (k : Z) (l : list A) : list A :=
  if (0 <=? k)%Z then firstn (Z.to_nat k) l
  else firstn (length l - Z.to_nat (- k)) l.

End Slice.

Section Sorted.
Variable A : Type.
Variable key : A -> Z.

(** Insertion of [x], which stood before every element of [l] in the list
    being sorted: it goes in front of the first element whose key is not
    greater than its own. *)
Fixpoint insert_desc (x : A) (l : list A) : list A :=
  match l with
  | [] => [x]
  | y :: l' =>
      if (key x <? key y)%Z then y :: insert_desc x l' else x :: l
  end.

(** [sorted(l, key=key, reverse=True)]. *)
Definition sorted_desc (l : list A) : list A :=
  fold_right insert_desc [] l.

(** The order of a stable descending sort of a list that was in [before]
    order: greater key first, and among equal keys the one that was
    before. *)
Definition ranked_before (before : A -> A -> Prop) (a b : A) : Prop :=
  (key b < key a)%Z \/ (key a = key b /\ before a b).

End Sorted.

End PySeq.

Import PyStr PySeq.

(** ** [extract_keywords] *)

Definition stop_words : list str :=
  map py
    ["the"; "a"; "an"; "and"; "or"; "but"; "in"; "on"; "at"; "to"; "for";
     "of"; "with"; "by"; "is"; "are"; "was"; "were"; "be"; "been"; "have";
     "has"; "had"; "do"; "does"; "did"; "will"; "would"; "could"; "should";
     "may"; "might"; "can"; "this"; "that"; "these"; "those"; "i"; "you";
     "he"; "she"; "it"; "we"; "they"; "me"; "him"; "her"; "us"; "them"]%string.

(** [''.join(c for c in word if c.isalnum())] *)
Definition strip_word (word : str) : str := filter isalnum word.

(** [len(word) > 2 and word not in stop_words] *)
Definition qualifies (word : str) : bool :=
  (2 <? Z.of_nat (length word))%Z
  && (if in_dec str_eq_dec word stop_words then false else true).

(** [word_freq[word] = word_freq.get(word, 0) + 1] on a dict kept in
    insertion order: an existing key keeps its place, a new key goes last. *)
Fixpoint bump (word : str) (word_freq : list (str * Z)) : list (str * Z) :=
  match word_freq with
  | [] => [(word, (0 + 1)%Z)]
  | (k, n) :: d =>
      if str_eq_dec k word then (k, (n + 1)%Z) :: d
      else (k, n) :: bump word d
  end.

(** The body of the loop over [words]. *)
Definition count_step (word_freq : list (str * Z)) (word : str)
  : list (str * Z) :=
  let word := strip_word word in
  if qualifies word then bump word word_freq else word_freq.

Definition count_words (words : list str) : list (str * Z) :=
  fold_left count_step words [].

Definition extract_keywords (text : str) (max_keywords : Z) : list str :=
  let words := split (lower text) in
  let word_freq := count_words words in
  let sorted_words := sorted_desc (@snd str Z) word_freq in
  map fst (slice_to max_keywords sorted_words).

(** The tokens that reach the counter, in input order, and the two
    quantities the ranking is stated with. *)
Definition tokens (text : str) : list str :=
  filter qualifies (map strip_word (split (lower text))).

Definition freq (t : str) (toks : list str) : Z :=
  Z.of_nat (count_occ str_eq_dec toks t).

Fixpoint first_pos (t : str) (toks : list str) : nat :=
  match toks with
  | [] => 0
  | x :: r => if str_eq_dec x t then 0 else S (first_pos t r)
  end.

(** The ranking of the keywords of a token sequence: more frequent first,
    and at equal frequency the one whose first occurrence is earlier. *)
Definition keyword_order (toks : list str) : str -> str -> Prop :=
  ranked_before (fun t => freq t toks)
    (fun a b => first_pos a toks < first_pos b toks).

(** [t.lower() == t] *)
Definition is_lowercase (t : str) : Prop := lower t = t.

(** ** [summarize_messages] *)

Definition instant := Z.

(** [timedelta(hours=h)], in microseconds. *)
Definition timedelta_hours (h : Z) : Z := (h * 3600 * 1000000)%Z.

Record Reaction := { emoji : str; reaction_users : Z }.

(** The view of a [discord.Message] the engine reads. *)
Record Message := {
  author_display_name : str;
  content : str;
  reactions : list Reaction;
  created_at : instant
}.

(** One entry of ["highlights"].  The timestamp is the instant that
    [isoformat()] renders. *)
Record Highlight := {
  hl_author : str;
  hl_content : str;
  hl_reactions : Z;
  hl_timestamp : instant
}.

Record Summary := {
  total_messages : Z;
  highlights : list Highlight;
  keywords : list str
}.

(** [len(msg.content) + (len(msg.reactions) * 10)] *)
Definition score (msg : Message) : Z :=
  (Z.of_nat (length (content msg)) + Z.of_nat (length (reactions msg)) * 10)%Z.

Definition messages_with_score (messages : list Message)
  : list (Message * Z) :=
  map (fun msg => (msg, score msg)) messages.

Definition top_messages (messages : list Message) : list (Message * Z) :=
  slice_to 5 (sorted_desc (@snd Message Z) (messages_with_score messages)).

(** [msg.content[:200] + "..." if len(msg.content) > 200 else msg.content] *)
Definition highlight_content (body : str) : str :=
  if (200 <? Z.of_nat (length body))%Z
  then slice_to 200 body ++ py "..."
  else body.

Definition make_highlight (entry : Message * Z) : Highlight :=
  let msg := fst entry in
  {| hl_author := author_display_name msg;
     hl_content := highlight_content (content msg);
     hl_reactions := Z.of_nat (length (reactions msg));
     hl_timestamp := created_at msg |}.

Definition summarize_messages (messages : list Message) : Summary :=
  match messages with
  | [] => {| total_messages := 0; highlights := []; keywords := [] |}
  | _ =>
      let all_text := join (py " ") (map content messages) in
      {| total_messages := Z.of_nat (length messages);
         highlights := map make_highlight (top_messages messages);
         keywords := extract_keywords all_text 5 |}
  end.

(** ** The world of a run: store, log, clock, platform *)

(** An exception, with [str(e)]: [discord.Forbidden] or any other
    [Exception]. *)
Inductive exn :=
| Forbidden (what : str)
| OtherError (what : str).

Definition exn_str (e : exn) : str :=
  match e with Forbidden s => s | OtherError s => s end.

Inductive outcome (A : Type) :=
| Returns (a : A)
| Raises (e : exn).
Arguments Returns {A} a.
Arguments Raises {A} e.

Inductive LogEntry :=
| LogWarning (msg : str)
| LogError (msg : str).

(** A document of the [servers] collection. *)
Record Doc := {
  last_summary : option instant;
  updated_at : option instant
}.

Definition Store := str -> option Doc.

Definition store_set (s : Store) (guild_id : str) (d : Doc) : Store :=
  fun k => if str_eq_dec k guild_id then Some d else s k.

Record Channel := {
  ch_name : str;
  ch_id : Z;
  ch_is_text : bool   (* [isinstance(channel, discord.TextChannel)] *)
}.

Record Guild := {
  g_name : str;
  g_channels : list Channel
}.

(** What the process holds and changes: the store, the log, the number of
    clock events so far, and the calls of [doc_ref.set] made so far. *)
Record World := {
  store : Store;
  log : list LogEntry;
  clock : nat;
  set_calls : list (str * instant)
}.

(** What the collaborators answer during one call. *)
Record Env := {
  time_at : nat -> instant;            (* the reading of [utcnow()] *)
  server_timestamp : instant;          (* [firestore.SERVER_TIMESTAMP] *)
  db_get_fault : option exn;           (* [doc_ref.get()] raises *)
  db_set_fault : option exn;           (* [doc_ref.set()] raises *)
  get_guild : str -> outcome (option Guild);
                                       (* [bot.get_guild(int(guild_id))] *)
  history : Channel -> instant -> outcome (list Message)
                                       (* [channel.history(limit=500, after=t)],
                                          read to its end *)
}.

(** Computations on the world that return or raise. *)
Definition M (A : Type) := World -> outcome A * World.

Definition ret {A} (a : A) : M A := fun w => (Returns a, w).

Definition bind {A B} (m : M A) (f : A -> M B) : M B :=
  fun w =>
    match m w with
    | (Returns a, w') => f a w'
    | (Raises e, w') => (Raises e, w')
    end.

(** [try: m except Exception as e: h e] *)
Definition try_except {A} (m : M A) (h : exn -> M A) : M A :=
  fun w =>
    match m w with
    | (Returns a, w') => (Returns a, w')
    | (Raises e, w') => h e w'
    end.

Declare Scope run_scope.
Delimit Scope run_scope with run.
Notation "x <- m ;; k" := (bind m (fun x => k))
  (at level 61, m at next level, right associativity) : run_scope.
Notation "m ;; k" := (bind m (fun _ => k))
  (at level 61, right associativity) : run_scope.
Open Scope run_scope.

Definition tick (w : World) : World :=
  {| store := store w; log := log w; clock := S (clock w);
     set_calls := set_calls w |}.

Definition add_log (entry : LogEntry) (w : World) : World :=
  {| store := store w; log := log w ++ [entry]; clock := clock w;
     set_calls := set_calls w |}.

Definition logger_warning (msg : str) : M unit :=
  fun w => (Returns tt, add_log (LogWarning msg) w).

Definition logger_error (msg : str) : M unit :=
  fun w => (Returns tt, add_log (LogError msg) w).

Section Engine.
Variable env : Env.

(** [datetime.utcnow()] *)
Definition utcnow : M instant :=
  fun w => (Returns (time_at env (clock w)), tick w).

(** [db.collection('servers').document(guild_id).get()]; [None] when
    [doc.exists] is false. *)
Definition doc_get (guild_id : str) : M (option Doc) :=
  fun w =>
    match db_get_fault env with
    | Some e => (Raises e, w)
    | None => (Returns (store w guild_id), w)
    end.

(** [db.collection('servers').document(guild_id).set(d)] *)
Definition doc_set (guild_id : str) (value : instant) : M unit :=
  fun w =>
    let called :=
      {| store := store w; log := log w; clock := clock w;
         set_calls := set_calls w ++ [(guild_id, value)] |} in
    match db_set_fault env with
    | Some e => (Raises e, called)
    | None =>
        (Returns tt,
         {| store :=
              store_set (store w) guild_id
                {| last_summary := Some value;
                   updated_at := Some (server_timestamp env) |};
            log := log w; clock := clock w;
            set_calls := set_calls called |})
    end.

(** [bot.get_guild(int(guild_id))] *)
Definition bot_get_guild (guild_id : str) : M (option Guild) :=
  fun w => (get_guild env guild_id, w).

(** The [async for] over [channel.history(limit=500, after=after)]; the
    clock moves on while it runs. *)
Definition channel_history (channel : Channel) (after : instant)
  : M (list Message) :=
  fun w => (history env channel after, tick w).

Definition get_last_summary_timestamp (guild_id : str) : M instant :=
  found <-
    try_except
      (doc <- doc_get guild_id ;;
       match doc with
       | Some d =>
           match last_summary d with
           | Some t => ret (Some t)
           | None => ret None
           end
       | None => ret None
       end)
      (fun e =>
         logger_error (py "Error getting last summary timestamp: "
                       ++ exn_str e) ;;
         ret None) ;;
  match found with
  | Some t => ret t
  | None => now <- utcnow ;; ret (now - timedelta_hours 24)%Z
  end.

Definition update_last_summary_timestamp (guild_id : str)
  (timestamp : instant) : M unit :=
  try_except
    (doc_set guild_id timestamp)
    (fun e =>
       logger_error (py "Error updating last summary timestamp: "
                     ++ exn_str e)).

End Engine.

(** ** [get_guild_summary] *)

Record ChannelSummary := {
  channel_name : str;
  channel_id : Z;          (* the number that [str(channel.id)] renders *)
  summary : Summary
}.

Record GuildSummary := {
  guild_name : str;
  guild_id : str;
  period_from : instant;   (* ["summary_period"]["from"] *)
  period_to : instant;     (* ["summary_period"]["to"] *)
  total_channels_with_activity : Z;
  guild_total_messages : Z;
  channel_summaries : list ChannelSummary;
  member_changes : str
}.

Inductive Result :=
| ErrorResult (error : str)
| SummaryResult (s : GuildSummary).

(** The three variables the channel loop updates. *)
Record Totals := {
  acc_summaries : list ChannelSummary;
  acc_messages : Z;
  acc_active : Z
}.

Definition no_totals : Totals :=
  {| acc_summaries := []; acc_messages := 0; acc_active := 0 |}.

Definition add_channel (channel : Channel) (s : Summary) (acc : Totals)
  : Totals :=
  {| acc_summaries :=
       acc_summaries acc
       ++ [{| channel_name := ch_name channel;
              channel_id := ch_id channel;
              summary := s |}];
     acc_messages := (acc_messages acc + total_messages s)%Z;
     acc_active := (acc_active acc + 1)%Z |}.

Section Run.
Variable env : Env.

(** The body of the loop over [text_channels]. *)
Definition process_channel (last_timestamp : instant) (channel : Channel)
  (acc : Totals) : M Totals :=
  try_except
    (messages <- channel_history env channel last_timestamp ;;
     match messages with
     | [] => ret acc
     | _ => ret (add_channel channel (summarize_messages messages) acc)
     end)
    (fun e =>
       match e with
       | Forbidden _ =>
           logger_warning (py "No permission to read channel "
                           ++ ch_name channel) ;;
           ret acc
       | OtherError what =>
           logger_error (py "Error processing channel " ++ ch_name channel
                         ++ py ": " ++ what) ;;
           ret acc
       end).

Fixpoint for_channels (last_timestamp : instant) (chs : list Channel)
  (acc : Totals) : M Totals :=
  match chs with
  | [] => ret acc
  | channel :: rest =>
      acc' <- process_channel last_timestamp channel acc ;;
      for_channels last_timestamp rest acc'
  end.

(** The run once the guild is resolved: lines 158 to 207. *)
Definition summarize_guild (guild_id : str) (guild : Guild) : M Result :=
  last_timestamp <- get_last_summary_timestamp env guild_id ;;
  current_time <- utcnow env ;;
  let text_channels := filter ch_is_text (g_channels guild) in
  acc <- for_channels last_timestamp text_channels no_totals ;;
  let member_changes := py "Member changes not tracked in this version" in
  update_last_summary_timestamp env guild_id current_time ;;
  ret (SummaryResult
         {| guild_name := g_name guild;
            guild_id := guild_id;
            period_from := last_timestamp;
            period_to := current_time;
            total_channels_with_activity := acc_active acc;
            guild_total_messages := acc_messages acc;
            channel_summaries := acc_summaries acc;
            member_changes := member_changes |}).

Definition get_guild_summary (guild_id : str) : M Result :=
  try_except
    (guild <- bot_get_guild env guild_id ;;
     match guild with
     | None => ret (ErrorResult (py "Guild not found"))
     | Some g => summarize_guild guild_id g
     end)
    (fun e =>
       logger_error (py "Error getting guild summary: " ++ exn_str e) ;;
       ret (ErrorResult (py "Failed to generate summary: " ++ exn_str e))).

End Run.

(** The stored watermark of a guild. *)
Definition watermark (w : World) (guild_id : str) : option instant :=
  match store w guild_id with
  | Some d => last_summary d
  | None => None
  end.

(** The clock event at which a run started on [w] takes its
    [current_time]: the one after the watermark lookup. *)
Definition start_tick (env : Env) (guild_id : str) (w : World) : nat :=
  clock (snd (get_last_summary_timestamp env guild_id w)).

Definition run_start (env : Env) (guild_id : str) (w : World) : instant :=
  time_at env (start_tick env guild_id w).

(** Successive calls for one guild, each with what the collaborators answer
    during it. *)
Fixpoint run_sequence (envs : list Env) (guild_id : str) (w : World)
  : list (outcome Result) * World :=
  match envs with
  | [] => ([], w)
  | env :: rest =>
      let (r, w1) := get_guild_summary env guild_id w in
      let (rs, w2) := run_sequence rest guild_id w1 in
      (r :: rs, w2)
  end.

(** A message belongs to the window of a call of [history] when it was
    created after the lower bound. *)
Definition in_window (after : instant) (m : Message) : Prop :=
  (after < created_at m)%Z.

(** What one text channel adds to the totals and to the log of a run whose
    lower bound is [last_timestamp]. *)
Definition channel_totals (env : Env) (last_timestamp : instant)
  (channel : Channel) (acc : Totals) : Totals :=
  match history env channel last_timestamp with
  | Returns (m :: ms) =>
      add_channel channel (summarize_messages (m :: ms)) acc
  | _ => acc
  end.

Definition channel_log (env : Env) (last_timestamp : instant)
  (channel : Channel) : list LogEntry :=
  match history env channel last_timestamp with
  | Returns _ => []
  | Raises (Forbidden _) =>
      [LogWarning (py "No permission to read channel " ++ ch_name channel)]
  | Raises (OtherError what) =>
      [LogError (py "Error processing channel " ++ ch_name channel
                 ++ py ": " ++ what)]
  end.

Definition loop_totals (env : Env) (last_timestamp : instant)
  (chs : list Channel) (acc : Totals) : Totals :=
  fold_left (fun a c => channel_totals env last_timestamp c a) chs acc.

Definition loop_log (env : Env) (last_timestamp : instant)
  (chs : list Channel) : list LogEntry :=
  flat_map (channel_log env last_timestamp) chs.

(** The lower bound a run started on [w] passes to [history]. *)
Definition lower_bound (env : Env) (guild_id : str) (w : World) : instant :=
  match fst (get_last_summary_timestamp env guild_id w) with
  | Returns t => t
  | Raises _ => 0%Z
  end.

(** The sum of the message counts of a list of channel summaries. *)
Definition sum_messages (l : list ChannelSummary) : Z :=
  fold_right Z.add 0%Z (map (fun cs => total_messages (summary cs)) l).

(** The summary a run builds from its lower bound, its start instant and
    the totals of its loop. *)
Definition guild_summary_of (guild_id : str) (guild : Guild)
  (last_timestamp current_time : instant) (acc : Totals) : GuildSummary :=
  {| guild_name := g_name guild;
     guild_id := guild_id;
     period_from := last_timestamp;
     period_to := current_time;
     total_channels_with_activity := acc_active acc;
     guild_total_messages := acc_messages acc;
     channel_summaries := acc_summaries acc;
     member_changes := py "Member changes not tracked in this version" |}.

(** What the commit step adds to the log, and the store it leaves. *)
Definition commit_log (env : Env) : list LogEntry :=
  match db_set_fault env with
  | Some e =>
      [LogError (py "Error updating last summary timestamp: " ++ exn_str e)]
  | None => []
  end.

Definition commit_store (env : Env) (guild_id : str) (t : instant)
  (s : Store) : Store :=
  match db_set_fault env with
  | Some _ => s
  | None =>
      store_set s guild_id
        {| last_summary := Some t;
           updated_at := Some (server_timestamp env) |}
  end.

(** The log entry of a channel whose fetch raised [e]. *)
Definition skip_entry (channel : Channel) (e : exn) : LogEntry :=
  match e with
  | Forbidden _ =>
      LogWarning (py "No permission to read channel " ++ ch_name channel)
  | OtherError what =>
      LogError (py "Error processing channel " ++ ch_name channel
                ++ py ": " ++ what)
  end.

(** What is looked at in the result of a call: the period, and the listed
    channels with their message counts. *)
Definition digest_view (r : outcome Result)
  : option (instant * instant * list (str * Z)) :=
  match r with
  | Returns (SummaryResult d) =>
      Some (period_from d, period_to d,
            map (fun cs => (channel_name cs, total_messages (summary cs)))
              (channel_summaries d))
  | _ => None
  end.

(** The collaborators of [env], the platform resolving every id to
    [guild]. *)
Definition resolving (env : Env) (guild : Guild) : Env :=
  {| time_at := time_at env;
     server_timestamp := server_timestamp env;
     db_get_fault := db_get_fault env;
     db_set_fault := db_set_fault env;
     get_guild := fun _ => Returns (Some guild);
     history := history env |}.

(** ** Sample data *)

Definition sample_long : Message :=
  {| author_display_name := py "ann";
     content := repeat "a"%char 50;
     reactions := [];
     created_at := 500%Z |}.

Definition sample_liked : Message :=
  {| author_display_name := py "bob";
     content := repeat "b"%char 10;
     reactions := [{| emoji := py "+1"; reaction_users := 2 |};
                   {| emoji := py "heart"; reaction_users := 1 |};
                   {| emoji := py "tada"; reaction_users := 1 |}];
     created_at := 600%Z |}.

Definition sample_general : Channel :=
  {| ch_name := py "general"; ch_id := 1; ch_is_text := true |}.

Definition sample_staff : Channel :=
  {| ch_name := py "staff"; ch_id := 2; ch_is_text := true |}.

Definition sample_quiet : Channel :=
  {| ch_name := py "quiet"; ch_id := 3; ch_is_text := true |}.

Definition sample_guild : Guild :=
  {| g_name := py "guild";
     g_channels := [sample_general; sample_staff; sample_quiet] |}.

Definition sample_id : str := py "42".

(** A store holding the watermark 100 for [sample_id]. *)
Definition sample_world : World :=
  {| store :=
       store_set (fun _ => None) sample_id
         {| last_summary := Some 100%Z; updated_at := Some 100%Z |};
     log := [];
     clock := 0;
     set_calls := [] |}.

Definition empty_world : World :=
  {| store := fun _ => None; log := []; clock := 0; set_calls := [] |}.

(** [general] has two messages, [staff] may not be read, [quiet] has no
    message. *)
Definition sample_history (c : Channel) (after : instant)
  : outcome (list Message) :=
  if (ch_id c =? 1)%Z then
    Returns (filter (fun m => (after <? created_at m)%Z)
               [sample_long; sample_liked])
  else if (ch_id c =? 2)%Z then Raises (Forbidden (py "403 Forbidden"))
  else Returns [].

Definition sample_env : Env :=
  {| time_at := fun n => (2000000000000 + Z.of_nat n)%Z;
     server_timestamp := 2000000000000%Z;
     db_get_fault := None;
     db_set_fault := None;
     get_guild := fun _ => Returns (Some sample_guild);
     history := sample_history |}.

(** The same collaborators, the store refusing reads, or writes. *)
Definition read_fault_env : Env :=
  {| time_at := time_at sample_env;
     server_timestamp := server_timestamp sample_env;
     db_get_fault := Some (OtherError (py "503 unavailable"));
     db_set_fault := None;
     get_guild := get_guild sample_env;
     history := history sample_env |}.

Definition write_fault_env : Env :=
  {| time_at := time_at sample_env;
     server_timestamp := server_timestamp sample_env;
     db_get_fault := None;
     db_set_fault := Some (OtherError (py "503 unavailable"));
     get_guild := get_guild sample_env;
     history := history sample_env |}.

(** A later call, one minute on, in which [staff] can be read and holds the
    message [sample_long]. *)
Definition later_env : Env :=
  {| time_at := fun n => (2000060000000 + Z.of_nat n)%Z;
     server_timestamp := 2000060000000%Z;
     db_get_fault := None;
     db_set_fault := None;
     get_guild := fun _ => Returns (Some sample_guild);
     history := fun c after =>
       if (ch_id c =? 2)%Z then
         Returns (filter (fun m => (after <? created_at m)%Z) [sample_long])
       else Returns [] |}.

(** The platform not knowing the guild, and [int(guild_id)] failing. *)
Definition unknown_guild_env : Env :=
  {| time_at := time_at sample_env;
     server_timestamp := server_timestamp sample_env;
     db_get_fault := None;
     db_set_fault := None;
     get_guild := fun _ => Returns None;
     history := history sample_env |}.

(** ** Views of a run used by the further properties *)

(** The messages a run gets from a channel: those the fetch returns, none
    when it raises. *)
Definition fetched (env : Env) (last_timestamp : instant) (c : Channel)
  : list Message :=
  match history env c last_timestamp with
  | Returns l => l
  | Raises _ => []
  end.

(** The channels a run lists: the text channels with at least one fetched
    message. *)
Definition listed (env : Env) (last_timestamp : instant) (c : Channel)
  : bool :=
  ch_is_text c
  && match fetched env last_timestamp c with [] => false | _ => true end.

Definition channel_entry (env : Env) (last_timestamp : instant)
  (c : Channel) : ChannelSummary :=
  {| channel_name := ch_name c;
     channel_id := ch_id c;
     summary := summarize_messages (fetched env last_timestamp c) |}.

(** The text channels whose fetch raises. *)
Definition fetch_fails (env : Env) (last_timestamp : instant) (c : Channel)
  : bool :=
  ch_is_text c
  && match history env c last_timestamp with
     | Returns _ => false
     | Raises _ => true
     end.

(** What the lookup of the watermark adds to the log. *)
Definition lookup_log (env : Env) : list LogEntry :=
  match db_get_fault env with
  | Some e =>
      [LogError (py "Error getting last summary timestamp: " ++ exn_str e)]
  | None => []
  end.

(** The collaborators of [env], the channels answering with [h]. *)
Definition with_history (env : Env)
  (h : Channel -> instant -> outcome (list Message)) : Env :=
  {| time_at := time_at env;
     server_timestamp := server_timestamp env;
     db_get_fault := db_get_fault env;
     db_set_fault := db_set_fault env;
     get_guild := get_guild env;
     history := h |}.

(** The number of distinct tokens of a text. *)
Definition distinct_tokens (text : str) : nat :=
  length (nodup str_eq_dec (tokens text)).

(** A second guild id, and a history in which every channel raises. *)
Definition other_id : str := py "43".

Definition failing_history (c : Channel) (after : instant)
  : outcome (list Message) :=
  Raises (OtherError (py "timeout")).

(** ** [create_summary_embed] *)

(** Text with code points beyond Latin-1: the embed literals hold some. *)
Definition ustr := list N.

Definition u (s : str) : ustr := map N_of_ascii s.

Definition ulit (s : string) : ustr := u (py s).

(** [str(n)] of an [int]. *)
Definition str_int (n : Z) : str :=
  py (DecimalString.NilZero.string_of_int (Z.to_int n)).

Record Field := {
  field_name : ustr;
  field_value : ustr;
  field_inline : bool
}.

(** An embed; [fields] is [None] when the dict has no such key. *)
Record Embed := {
  title : ustr;
  description : ustr;
  color : Z;
  fields : option (list Field)
}.

Section Embed.
(** [datetime.isoformat()], and the order in which a [set] built by the
    given insertions is iterated. *)
Variable isoformat : instant -> str.
Variable set_order : list str -> list str.

(** [f"• **{highlight['author']}:** {highlight['content'][:100]}...\n"] *)
Definition highlight_line (h : Highlight) : ustr :=
  [0x2022%N] ++ ulit " **" ++ u (hl_author h) ++ ulit ":** "
  ++ u (slice_to 100 (hl_content h)) ++ ulit "..." ++ [10%N].

(** The loop over [summary['highlights'][:3]]. *)
Definition highlights_text (s : Summary) : ustr :=
  fold_left (fun text h => text ++ highlight_line h)
    (slice_to 3 (highlights s)) [].

Definition channel_field (cs : ChannelSummary) (text : ustr) : Field :=
  {| field_name :=
       [0x1F4DD%N] ++ ulit " #" ++ u (channel_name cs) ++ ulit " ("
       ++ u (str_int (total_messages (summary cs))) ++ ulit " messages)";
     field_value := slice_to 1024 text;
     field_inline := false |}.

(** The body of the loop over [summary_data['channel_summaries'][:10]]. *)
Definition add_channel_field (fs : list Field) (cs : ChannelSummary)
  : list Field :=
  match highlights_text (summary cs) with
  | [] => fs
  | text => fs ++ [channel_field cs text]
  end.

Definition overview_field (d : GuildSummary) : Field :=
  {| field_name := [0x1F4C8%N] ++ ulit " Overview";
     field_value :=
       [0x2022%N] ++ ulit " **Total Messages:** "
       ++ u (str_int (guild_total_messages d)) ++ [10%N]
       ++ [0x2022%N] ++ ulit " **Active Channels:** "
       ++ u (str_int (total_channels_with_activity d));
     field_inline := false |}.

(** The keywords inserted in [all_keywords], in order of insertion. *)
Definition inserted_keywords (d : GuildSummary) : list str :=
  flat_map (fun cs => keywords (summary cs)) (channel_summaries d).

Definition keywords_field (all_keywords : list str) : Field :=
  {| field_name := [0x1F511%N] ++ ulit " Key Topics";
     field_value := u (join (py ", ") (slice_to 10 all_keywords));
     field_inline := false |}.

Definition add_keywords_field (d : GuildSummary) (fs : list Field)
  : list Field :=
  match channel_summaries d with
  | [] => fs
  | _ =>
      match set_order (inserted_keywords d) with
      | [] => fs
      | all_keywords => fs ++ [keywords_field all_keywords]
      end
  end.

(** The value of ["embeds"] in the dict returned. *)
Definition create_summary_embed (summary_data : Result) : list Embed :=
  match summary_data with
  | ErrorResult error =>
      [{| title := [0x274C%N] ++ ulit " Summary Error";
          description := u error;
          color := 0xFF0000;
          fields := None |}]
  | SummaryResult d =>
      let fs := [overview_field d] in
      let fs :=
        fold_left add_channel_field (slice_to 10 (channel_summaries d)) fs in
      let fs := add_keywords_field d fs in
      [{| title := [0x1F4CA%N] ++ ulit " Server Summary: " ++ u (guild_name d);
          description :=
            ulit "Activity summary from "
            ++ u (slice_to 19 (isoformat (period_from d)))
            ++ ulit " to " ++ u (slice_to 19 (isoformat (period_to d)));
          color := 0x00FF00;
          fields := Some fs |}]
  end.

End Embed.

(** ** [verify_discord_signature] and [handle_discord_interaction] *)

Definition bytes := list Byte.byte.

(** The fields of a [DiscordInteraction] the handler reads: [i_data] is
    [None] when [data] is [None], and otherwise holds
    [data.get("name", "")]. *)
Record DiscordInteraction := {
  i_type : Z;
  i_data : option str;
  i_guild_id : option str
}.

(** What the runtime, the libraries and the configuration answer. *)
Record WebEnv := {
  DISCORD_PUBLIC_KEY : option str;       (* [os.getenv(...)] *)
  utf8_decode : bytes -> outcome ustr;   (* [b.decode('utf-8')] *)
  utf8_encode : ustr -> bytes;           (* [s.encode('utf-8')] *)
  hmac_sha256_hexdigest : bytes -> bytes -> str;
                                         (* [hmac.new(k, m, sha256).hexdigest()] *)
  parse_interaction : bytes -> outcome DiscordInteraction;
                                         (* the [DiscordInteraction] made of [json.loads(body)] *)
  wait_until_ready : outcome unit;       (* [request.app.state.bot.wait_until_ready()] *)
  invalid_signature_str : str            (* [str(HTTPException(401, "Invalid signature"))] *)
}.

(** The request: its body and the two headers read, [None] when absent. *)
Record Request := {
  req_body : bytes;
  x_signature_ed25519 : option str;
  x_signature_timestamp : option str
}.

(** The JSON content of a response: [{"type": 1}], or [{"type": 4,
    "data": {"content": c}}], or [{"type": 4, "data": {"embeds": es}}]. *)
Inductive Payload :=
| Pong
| Content (c : ustr)
| Embeds (es : list Embed).

Record JSONResponse := {
  status_code : Z;
  payload : Payload
}.

(** [JSONResponse(content=p)] *)
Definition json_response (p : Payload) : JSONResponse :=
  {| status_code := 200; payload := p |}.

Definition lift {A} (o : outcome A) : M A := fun w => (o, w).

Definition raise {A} (e : exn) : M A := fun w => (Raises e, w).

(** [headers.get(name, "")] *)
Definition header_or_empty (h : option str) : str :=
  match h with Some v => v | None => [] end.

Definition is_ascii (c : ascii) : bool := code c <? 128.

(** [hmac.compare_digest(a, b)] on two [str]: it raises a [TypeError] when
    one of them holds a non-ASCII character. *)
Definition compare_digest (a b : str) : outcome bool :=
  if forallb is_ascii a && forallb is_ascii b
  then Returns (if str_eq_dec a b then true else false)
  else
    Raises (OtherError
              (py "comparing strings with non-ASCII characters is not supported")).

Section Web.
Variable web : WebEnv.

Definition verify_discord_signature (request_body : bytes)
  (signature timestamp : str) : M bool :=
  match DISCORD_PUBLIC_KEY web with
  | None | Some [] =>
      logger_error (py "DISCORD_PUBLIC_KEY not set") ;;
      ret false
  | Some key =>
      try_except
        (decoded <- lift (utf8_decode web request_body) ;;
         let message := u timestamp ++ ulit "." ++ decoded in
         let expected_signature :=
           hmac_sha256_hexdigest web
             (utf8_encode web (u key)) (utf8_encode web message) in
         lift (compare_digest (py "v0=" ++ expected_signature) signature))
        (fun e =>
           logger_error (py "Signature verification failed: " ++ exn_str e) ;;
           ret false)
  end.

Variable env : Env.
Variable isoformat : instant -> str.
Variable set_order : list str -> list str.

Definition unknown_command : M JSONResponse :=
  ret (json_response (Content (ulit "Unknown command"))).

Definition handle_discord_interaction (request : Request)
  : M JSONResponse :=
  try_except
    (let body := req_body request in
     let signature := header_or_empty (x_signature_ed25519 request) in
     let timestamp := header_or_empty (x_signature_timestamp request) in
     valid <- verify_discord_signature body signature timestamp ;;
     if negb valid then
       raise (OtherError (invalid_signature_str web))
     else
       interaction <- lift (parse_interaction web body) ;;
       if (i_type interaction =? 1)%Z then ret (json_response Pong)
       else if (i_type interaction =? 2)%Z then
         match i_data interaction with
         | None =>
             raise (OtherError
                      (py "'NoneType' object has no attribute 'get'"))
         | Some command_name =>
             if str_eq_dec command_name (py "summarize") then
               match i_guild_id interaction with
               | None | Some [] =>
                   ret (json_response
                          (Content
                             ([0x274C%N]
                              ++ ulit " This command can only be used in a server!")))
               | Some guild_id =>
                   lift (wait_until_ready web) ;;
                   summary_data <- get_guild_summary env guild_id ;;
                   let response_data :=
                     create_summary_embed isoformat set_order summary_data in
                   ret (json_response (Embeds response_data))
               end
             else unknown_command
         end
       else unknown_command)
    (fun e =>
       logger_error (py "Error handling Discord interaction: " ++ exn_str e) ;;
       ret (json_response
              (Content ([0x274C%N] ++ ulit " An error occurred: "
                        ++ u (exn_str e))))).

End Web.

(** ** Views of the embed and sample collaborators of the handler *)

(** The channel fields of an embed: one for each channel summary whose
    highlight text is not empty. *)
Definition channel_fields (l : list ChannelSummary) : list Field :=
  flat_map
    (fun cs =>
       match highlights_text (summary cs) with
       | [] => []
       | text => [channel_field cs text]
       end) l.

(** The fields of the embeds of a result, none when the key is absent. *)
Definition embed_fields (es : list Embed) : list Field :=
  flat_map (fun e => match fields e with Some fs => fs | None => [] end) es.

(** Stand-ins for [isoformat] and for the iteration order of a set. *)
Definition sample_isoformat (t : instant) : str := str_int t.

Definition sample_set_order (l : list str) : list str :=
  nodup str_eq_dec l.

(** Stand-ins for the libraries: every body decodes to the empty text and
    every digest is "0f". *)
Definition sample_web : WebEnv :=
  {| DISCORD_PUBLIC_KEY := Some (py "secret");
     utf8_decode := fun _ => Returns [];
     utf8_encode := fun _ => [];
     hmac_sha256_hexdigest := fun _ _ => py "0f";
     parse_interaction := fun _ =>
       Returns {| i_type := 2;
                  i_data := Some (py "summarize");
                  i_guild_id := Some sample_id |};
     wait_until_ready := Returns tt;
     invalid_signature_str := py "401: Invalid signature" |}.

Definition ping_web : WebEnv :=
  {| DISCORD_PUBLIC_KEY := DISCORD_PUBLIC_KEY sample_web;
     utf8_decode := utf8_decode sample_web;
     utf8_encode := utf8_encode sample_web;
     hmac_sha256_hexdigest := hmac_sha256_hexdigest sample_web;
     parse_interaction := fun _ =>
       Returns {| i_type := 1; i_data := None; i_guild_id := None |};
     wait_until_ready := wait_until_ready sample_web;
     invalid_signature_str := invalid_signature_str sample_web |}.

Definition signed_request : Request :=
  {| req_body := [];
     x_signature_ed25519 := Some (py "v0=0f");
     x_signature_timestamp := Some (py "1700000000") |}.

Definition unsigned_request : Request :=
  {| req_body := [];
     x_signature_ed25519 := None;
     x_signature_timestamp := None |}.

(** * Properties *)

(** ** The character tables

    The three tables, written out over the 256 code points. *)

Example isspace_table :
  map code (filter isspace (map ascii_of_nat (seq 0 256)))
  =
    [9; 10; 11; 12; 13; 28; 29; 30; 31; 32; 133; 160].
Proof. vm_compute. reflexivity. Qed.

Example isalnum_table :
  map code (filter isalnum (map ascii_of_nat (seq 0 256)))
  =
    [48; 49; 50; 51; 52; 53; 54; 55; 56; 57; 65; 66; 67; 68; 69; 70; 71;
     72; 73; 74; 75; 76; 77; 78; 79; 80; 81; 82; 83; 84; 85; 86; 87; 88;
     89; 90; 97; 98; 99; 100; 101; 102; 103; 104; 105; 106; 107; 108; 109;
     110; 111; 112; 113; 114; 115; 116; 117; 118; 119; 120; 121; 122; 170;
     178; 179; 181; 185; 186; 188; 189; 190; 192; 193; 194; 195; 196; 197;
     198; 199; 200; 201; 202; 203; 204; 205; 206; 207; 208; 209; 210; 211;
     212; 213; 214; 216; 217; 218; 219; 220; 221; 222; 223; 224; 225; 226;
     227; 228; 229; 230; 231; 232; 233; 234; 235; 236; 237; 238; 239; 240;
     241; 242; 243; 244; 245; 246; 248; 249; 250; 251; 252; 253; 254; 255].
Proof. vm_compute. reflexivity. Qed.

Example lower_table :
  map code (lower (map ascii_of_nat (seq 0 256)))
  =
    [0; 1; 2; 3; 4; 5; 6; 7; 8; 9; 10; 11; 12; 13; 14; 15; 16; 17; 18; 19;
     20; 21; 22; 23; 24; 25; 26; 27; 28; 29; 30; 31; 32; 33; 34; 35; 36;
     37; 38; 39; 40; 41; 42; 43; 44; 45; 46; 47; 48; 49; 50; 51; 52; 53;
     54; 55; 56; 57; 58; 59; 60; 61; 62; 63; 64; 97; 98; 99; 100; 101; 102;
     103; 104; 105; 106; 107; 108; 109; 110; 111; 112; 113; 114; 115; 116;
     117; 118; 119; 120; 121; 122; 91; 92; 93; 94; 95; 96; 97; 98; 99; 100;
     101; 102; 103; 104; 105; 106; 107; 108; 109; 110; 111; 112; 113; 114;
     115; 116; 117; 118; 119; 120; 121; 122; 123; 124; 125; 126; 127; 128;
     129; 130; 131; 132; 133; 134; 135; 136; 137; 138; 139; 140; 141; 142;
     143; 144; 145; 146; 147; 148; 149; 150; 151; 152; 153; 154; 155; 156;
     157; 158; 159; 160; 161; 162; 163; 164; 165; 166; 167; 168; 169; 170;
     171; 172; 173; 174; 175; 176; 177; 178; 179; 180; 181; 182; 183; 184;
     185; 186; 187; 188; 189; 190; 191; 224; 225; 226; 227; 228; 229; 230;
     231; 232; 233; 234; 235; 236; 237; 238; 239; 240; 241; 242; 243; 244;
     245; 246; 215; 248; 249; 250; 251; 252; 253; 254; 223; 224; 225; 226;
     227; 228; 229; 230; 231; 232; 233; 234; 235; 236; 237; 238; 239; 240;
     241; 242; 243; 244; 245; 246; 247; 248; 249; 250; 251; 252; 253; 254;
     255].
Proof. vm_compute. reflexivity. Qed.

Example extract_keywords_empty : extract_keywords [] 5 = [].
Proof. reflexivity. Qed.

Example summarize_messages_empty :
  summarize_messages []
  = {| total_messages := 0; highlights := []; keywords := [] |}.
Proof. reflexivity. Qed.

(** ** Slices and the stable descending sort *)

Section SliceFacts.
Variable A : Type.

Lemma slice_to_firstn (k : Z) (l : list A) :
  exists n, slice_to k l = firstn n l.
Proof.
  unfold slice_to. destruct (0 <=? k)%Z; eexists; reflexivity.
Qed.

Lemma slice_to_length (k : Z) (l : list A) :
  (0 <= k)%Z -> (Z.of_nat (length (slice_to k l)) <= k)%Z.
Proof.
  intros Hk. unfold slice_to.
  destruct (0 <=? k)%Z eqn:E; [| apply Z.leb_gt in E; lia].
  rewrite length_firstn. lia.
Qed.

Lemma firstn_incl (n : nat) (l : list A) (x : A) :
  In x (firstn n l) -> In x l.
Proof.
  intros H. rewrite <- (firstn_skipn n l). apply in_or_app. now left.
Qed.

Lemma slice_to_incl (k : Z) (l : list A) (x : A) :
  In x (slice_to k l) -> In x l.
Proof.
  destruct (slice_to_firstn k l) as [n ->]. apply firstn_incl.
Qed.

Lemma firstn_StronglySorted (R : A -> A -> Prop) (n : nat) (l : list A) :
  StronglySorted R l -> StronglySorted R (firstn n l).
Proof.
  intros H. revert n.
  induction H as [|x l Hs IH Hx]; intros [|n]; simpl; try constructor.
  - apply IH.
  - rewrite Forall_forall in *. intros y Hy. apply Hx.
    eapply firstn_incl; eassumption.
Qed.

Lemma slice_to_StronglySorted (R : A -> A -> Prop) (k : Z) (l : list A) :
  StronglySorted R l -> StronglySorted R (slice_to k l).
Proof.
  destruct (slice_to_firstn k l) as [n ->]. apply firstn_StronglySorted.
Qed.

Lemma map_StronglySorted (B : Type) (f : A -> B) (R : B -> B -> Prop)
  (l : list A) :
  StronglySorted (fun a b => R (f a) (f b)) l -> StronglySorted R (map f l).
Proof.
  induction 1 as [|x l Hs IH Hx]; simpl; constructor; auto.
  rewrite Forall_forall in *. intros y Hy.
  apply in_map_iff in Hy as (z & <- & Hz). auto.
Qed.

Lemma StronglySorted_weaken (R R' : A -> A -> Prop) (l : list A) :
  (forall a b, In a l -> In b l -> R a b -> R' a b) ->
  StronglySorted R l -> StronglySorted R' l.
Proof.
  intros Himp H. induction H as [|x l Hs IH Hx]; constructor.
  - apply IH. intros a b Ha Hb. apply Himp; now right.
  - rewrite Forall_forall in *. intros y Hy.
    apply Himp; [now left | now right | auto].
Qed.

End SliceFacts.

Section SortFacts.
Variable A : Type.
Variable key : A -> Z.

Lemma insert_desc_perm (x : A) (l : list A) :
  Permutation (x :: l) (insert_desc key x l).
Proof.
  induction l as [|y l IH]; simpl; auto.
  destruct (key x <? key y)%Z; auto.
  rewrite perm_swap. now constructor.
Qed.

Lemma sorted_desc_perm (l : list A) : Permutation l (sorted_desc key l).
Proof.
  induction l as [|x l IH]; simpl; auto.
  rewrite <- insert_desc_perm. now constructor.
Qed.

Lemma sorted_desc_In (l : list A) (x : A) :
  In x (sorted_desc key l) <-> In x l.
Proof.
  split; apply Permutation_in;
    [symmetry |]; apply sorted_desc_perm.
Qed.

Lemma ranked_before_key (before : A -> A -> Prop) (a b : A) :
  ranked_before key before a b -> (key b <= key a)%Z.
Proof. unfold ranked_before. lia. Qed.

Lemma insert_desc_ranked (before : A -> A -> Prop) (x : A) (l : list A) :
  Forall (before x) l ->
  StronglySorted (ranked_before key before) l ->
  StronglySorted (ranked_before key before) (insert_desc key x l).
Proof.
  intros Hx Hs. induction Hs as [|y l Hs IH Hy]; simpl.
  - repeat constructor.
  - inversion Hx as [|? ? Hxy Hxl]; subst.
    destruct (key x <? key y)%Z eqn:E.
    + apply Z.ltb_lt in E. constructor; [now apply IH |].
      rewrite Forall_forall in *. intros z Hz.
      apply (Permutation_in _ (Permutation_sym (insert_desc_perm x l))) in Hz.
      destruct Hz as [<- | Hz]; [left; lia | now apply Hy].
    + apply Z.ltb_ge in E. constructor; [now constructor |].
      constructor.
      * destruct (Z.eq_dec (key x) (key y)); [right; auto | left; lia].
      * rewrite Forall_forall in *. intros z Hz.
        pose proof (ranked_before_key (Hy z Hz)).
        destruct (Z.eq_dec (key x) (key z)); [right; auto | left; lia].
Qed.

Lemma sorted_desc_ranked (before : A -> A -> Prop) (l : list A) :
  StronglySorted before l ->
  StronglySorted (ranked_before key before) (sorted_desc key l).
Proof.
  induction 1 as [|x l Hs IH Hx]; simpl; [constructor |].
  apply insert_desc_ranked; auto.
  rewrite Forall_forall in *. intros y Hy. apply Hx.
  now apply sorted_desc_In.
Qed.

End SortFacts.



(** ** The keyword extractor *)

Section ListFacts.
Variable A : Type.

Lemma StronglySorted_map_inv (B : Type) (f : A -> B) (R : B -> B -> Prop)
  (l : list A) :
  StronglySorted R (map f l) -> StronglySorted (fun a b => R (f a) (f b)) l.
Proof.
  induction l as [|x l IH]; simpl; intros H; [constructor |].
  inversion H as [|? ? Hs Hx]; subst. constructor; auto.
  rewrite Forall_forall in *. intros y Hy. apply Hx. now apply in_map.
Qed.

Lemma StronglySorted_snoc (R : A -> A -> Prop) (l : list A) (x : A) :
  StronglySorted R l -> Forall (fun a => R a x) l ->
  StronglySorted R (l ++ [x]).
Proof.
  induction 1 as [|y l Hs IH Hy]; simpl; intros Hx.
  - repeat constructor.
  - inversion Hx; subst. constructor; auto.
    apply Forall_app. split; auto.
Qed.

Lemma StronglySorted_NoDup (R : A -> A -> Prop) (l : list A) :
  (forall a, ~ R a a) -> StronglySorted R l -> NoDup l.
Proof.
  intros Hirr. induction 1 as [|x l Hs IH Hx]; constructor; auto.
  intros Hin. rewrite Forall_forall in Hx. exact (Hirr x (Hx x Hin)).
Qed.


End ListFacts.

Section FirstPos.

Lemma first_pos_app (a : str) (l l' : list str) :
  In a l -> first_pos a (l ++ l') = first_pos a l.
Proof.
  induction l as [|x l IH]; simpl; [tauto |].
  intros H. destruct (str_eq_dec x a); auto.
  f_equal. apply IH. destruct H; [contradiction | assumption].
Qed.

Lemma first_pos_lt (a : str) (l : list str) :
  In a l -> first_pos a l < length l.
Proof.
  induction l as [|x l IH]; simpl; [tauto |].
  intros H. destruct (str_eq_dec x a); [lia |].
  destruct H; [contradiction |]. apply IH in H. lia.
Qed.

Lemma first_pos_new (a : str) (l : list str) :
  ~ In a l -> first_pos a (l ++ [a]) = length l.
Proof.
  induction l as [|x l IH]; simpl; intros H.
  - destruct (str_eq_dec a a); congruence.
  - destruct (str_eq_dec x a); [tauto |]. f_equal. apply IH. tauto.
Qed.

Lemma freq_app (a : str) (l l' : list str) :
  freq a (l ++ l') = (freq a l + freq a l')%Z.
Proof. unfold freq. rewrite count_occ_app. lia. Qed.

Lemma freq_absent (a : str) (l : list str) : ~ In a l -> freq a l = 0%Z.
Proof.
  intros H. unfold freq.
  apply (count_occ_not_In str_eq_dec) in H. now rewrite H.
Qed.

Lemma freq_one (a b : str) :
  freq a [b] = if str_eq_dec b a then 1%Z else 0%Z.
Proof. unfold freq. simpl. now destruct (str_eq_dec b a). Qed.

End FirstPos.

Section WordCount.

Lemma bump_keys_old (t : str) (d : list (str * Z)) :
  In t (map fst d) -> map fst (bump t d) = map fst d.
Proof.
  induction d as [|[k n] d IH]; simpl; [tauto |].
  intros H. destruct (str_eq_dec k t) as [E | E]; simpl; auto.
  f_equal. apply IH. destruct H; [contradiction | assumption].
Qed.

Lemma bump_keys_new (t : str) (d : list (str * Z)) :
  ~ In t (map fst d) -> map fst (bump t d) = map fst d ++ [t].
Proof.
  induction d as [|[k n] d IH]; simpl; auto.
  intros H. destruct (str_eq_dec k t) as [E | E]; simpl; [tauto |].
  f_equal. apply IH. tauto.
Qed.

Lemma counts_other (l : list str) (t : str) (d : list (str * Z)) :
  ~ In t (map fst d) ->
  Forall (fun p => snd p = freq (fst p) l) d ->
  Forall (fun p => snd p = freq (fst p) (l ++ [t])) d.
Proof.
  intros Hnot H. rewrite Forall_forall in *. intros p Hp.
  rewrite freq_app, freq_one, (H p Hp).
  destruct (str_eq_dec t (fst p)) as [E | E]; [| lia].
  exfalso. apply Hnot. rewrite E. now apply in_map.
Qed.

Lemma bump_counts (l : list str) (t : str) (d : list (str * Z)) :
  NoDup (map fst d) ->
  (~ In t (map fst d) -> ~ In t l) ->
  Forall (fun p => snd p = freq (fst p) l) d ->
  Forall (fun p => snd p = freq (fst p) (l ++ [t])) (bump t d).
Proof.
  induction d as [|[k n] d IH]; simpl; intros Hnd Hnew Hc.
  - constructor; [| constructor]. simpl.
    rewrite freq_app, freq_one, freq_absent by tauto.
    now destruct (str_eq_dec t t).
  - inversion Hnd as [|? ? Hk Hnd']; subst.
    inversion Hc as [|? ? Hn Hc']; subst. simpl in Hn.
    destruct (str_eq_dec k t) as [E | E].
    + subst k. constructor.
      * simpl. rewrite freq_app, freq_one.
        destruct (str_eq_dec t t); [lia | congruence].
      * now apply counts_other.
    + constructor.
      * simpl. rewrite freq_app, freq_one.
        destruct (str_eq_dec t k); [congruence | lia].
      * apply IH; auto. intros H. apply Hnew. intros [H' | H']; auto.
Qed.

(** The dict after the loop, for the tokens that reach the counter: every
    key with its number of occurrences, the keys being the tokens in order
    of first occurrence. *)
Lemma word_freq_spec (l : list str) :
  let d := fold_left (fun d t => bump t d) l [] in
  Forall (fun p => snd p = freq (fst p) l) d
  /\ (forall k, In k (map fst d) <-> In k l)
  /\ StronglySorted (fun a b => first_pos a l < first_pos b l) (map fst d).
Proof.
  induction l as [|t l IH] using rev_ind; simpl.
  - repeat split; try constructor; simpl; tauto.
  - rewrite fold_left_app. simpl.
    set (d := fold_left (fun d t => bump t d) l []) in *.
    destruct IH as (Hc & Hk & Hs).
    assert (Hnd : NoDup (map fst d)).
    { eapply StronglySorted_NoDup; [| exact Hs]. intros a. cbv beta. lia. }
    assert (Hold : StronglySorted
                     (fun a b => first_pos a (l ++ [t]) < first_pos b (l ++ [t]))
                     (map fst d)).
    { eapply StronglySorted_weaken; [| exact Hs]. simpl.
      intros a b Ha Hb. apply Hk in Ha, Hb.
      now rewrite !first_pos_app. }
    split; [| split].
    + apply bump_counts; auto. intros H1 H2. apply H1. now apply Hk.
    + intros k. rewrite in_app_iff. simpl.
      destruct (in_dec str_eq_dec t (map fst d)) as [Hin | Hin].
      * rewrite bump_keys_old by assumption. rewrite Hk.
        split; [tauto |]. intros [H | [<- | []]]; auto. now apply Hk.
      * rewrite bump_keys_new by assumption. rewrite in_app_iff, Hk.
        simpl. tauto.
    + destruct (in_dec str_eq_dec t (map fst d)) as [Hin | Hin].
      * now rewrite bump_keys_old.
      * rewrite bump_keys_new by assumption.
        apply StronglySorted_snoc; auto.
        rewrite Forall_forall. intros a Ha. apply Hk in Ha.
        rewrite first_pos_app by assumption.
        rewrite first_pos_new by (now rewrite <- Hk).
        now apply first_pos_lt.
Qed.

Lemma count_words_tokens (words : list str) (d : list (str * Z)) :
  fold_left count_step words d
  = fold_left (fun d t => bump t d)
      (filter qualifies (map strip_word words)) d.
Proof.
  revert d. induction words as [|w words IH]; simpl; intros d; auto.
  unfold count_step at 2.
  destruct (qualifies (strip_word w)); simpl; apply IH.
Qed.

(** The keywords come out in [keyword_order] of the tokens. *)
Lemma extract_keywords_sorted (text : str) (max_keywords : Z) :
  StronglySorted (keyword_order (tokens text))
    (extract_keywords text max_keywords).
Proof.
  unfold extract_keywords, count_words. rewrite count_words_tokens.
  fold (tokens text). set (toks := tokens text).
  destruct (word_freq_spec toks) as (Hc & Hk & Hs). simpl in Hc, Hk, Hs.
  set (d := fold_left (fun d t => bump t d) toks []) in *.
  apply map_StronglySorted.
  apply StronglySorted_map_inv in Hs.
  apply (sorted_desc_ranked (@snd str Z)) in Hs.
  apply (slice_to_StronglySorted max_keywords) in Hs.
  eapply StronglySorted_weaken; [| exact Hs]. simpl.
  intros a b Ha Hb.
  apply slice_to_incl, sorted_desc_In in Ha, Hb.
  rewrite Forall_forall in Hc.
  unfold keyword_order, ranked_before.
  rewrite (Hc a Ha), (Hc b Hb). tauto.
Qed.

Lemma extract_keywords_tokens (text : str) (max_keywords : Z) (t : str) :
  In t (extract_keywords text max_keywords) -> In t (tokens text).
Proof.
  unfold extract_keywords, count_words. rewrite count_words_tokens.
  fold (tokens text). intros H.
  apply in_map_iff in H as (p & <- & Hp).
  apply slice_to_incl, sorted_desc_In in Hp.
  apply (word_freq_spec (tokens text)). now apply in_map.
Qed.


End WordCount.

Section Lowercase.

Lemma lower_char_idem (c : ascii) : lower_char (lower_char c) = lower_char c.
Proof. destruct c as [[] [] [] [] [] [] [] []]; vm_compute; reflexivity. Qed.

Lemma split_from_Forall (P : ascii -> Prop) (s cur : str) :
  Forall P cur -> Forall P s -> Forall (Forall P) (split_from cur s).
Proof.
  revert cur. induction s as [|c s IH]; simpl; intros cur Hcur Hs.
  - destruct cur; repeat constructor. now apply Forall_rev.
  - inversion Hs; subst.
    destruct (isspace c).
    + destruct cur; [now apply IH |].
      constructor; [now apply Forall_rev | now apply IH].
    + apply IH; auto.
Qed.

Lemma lower_fixed (s : str) :
  Forall (fun c => lower_char c = c) s -> lower s = s.
Proof.
  induction 1 as [|c s Hc Hs IH]; simpl; auto. now rewrite Hc, IH.
Qed.

Lemma tokens_lowercase (text : str) (t : str) :
  In t (tokens text) -> is_lowercase t.
Proof.
  unfold tokens. intros H.
  apply filter_In in H as [H _].
  apply in_map_iff in H as (w & <- & Hw).
  apply lower_fixed.
  assert (Hall : Forall (Forall (fun c => lower_char c = c))
                   (split (lower text))).
  { apply split_from_Forall; [constructor |].
    unfold lower. rewrite Forall_forall. intros c Hc.
    apply in_map_iff in Hc as (c0 & <- & _). apply lower_char_idem. }
  rewrite Forall_forall in Hall. specialize (Hall w Hw).
  unfold strip_word. rewrite Forall_forall in *.
  intros c Hc. apply filter_In in Hc as [Hc _]. auto.
Qed.

Lemma tokens_qualify (text : str) (t : str) :
  In t (tokens text) -> 2 < length t /\ ~ In t stop_words.
Proof.
  unfold tokens. intros H. apply filter_In in H as [_ H].
  unfold qualifies in H. apply andb_true_iff in H as [Hlen Hstop].
  apply Z.ltb_lt in Hlen.
  destruct (in_dec str_eq_dec t stop_words); [discriminate |].
  split; [lia | assumption].
Qed.

Lemma keyword_order_irrefl (toks : list str) (t : str) :
  ~ keyword_order toks t t.
Proof. unfold keyword_order, ranked_before. lia. Qed.

End Lowercase.


(** C4, as the spec states it, fails for a negative [max_keywords]: the
    slice then drops that many keywords from the end of the ranking, and
    what is left is longer than [max_keywords]. *)
Lemma extract_keywords_negative_limit :
  extract_keywords (py "aaa bbb ccc") (-1) = [py "aaa"; py "bbb"]
  /\ ~ (Z.of_nat (length (extract_keywords (py "aaa bbb ccc") (-1))) <= -1)%Z.
Proof.
  split; [vm_compute; reflexivity |].
  vm_compute. intros H. apply H. reflexivity.
Qed.

(** C4 (amended): for every text and every [max_keywords], no keyword is a
    stop word, every keyword is longer than 2 characters and lowercase, and
    the keywords are pairwise distinct; when [max_keywords] is not negative
    there are at most [max_keywords] of them. *)
Theorem extract_keywords_filtered (text : str) (max_keywords : Z) :
  Forall (fun t => ~ In t stop_words /\ 2 < length t /\ is_lowercase t)
    (extract_keywords text max_keywords)
  /\ NoDup (extract_keywords text max_keywords)
  /\ ((0 <= max_keywords)%Z ->
      (Z.of_nat (length (extract_keywords text max_keywords))
       <= max_keywords)%Z).
Proof.
  split; [| split].
  - rewrite Forall_forall. intros t Ht.
    apply extract_keywords_tokens in Ht.
    destruct (tokens_qualify _ _ Ht). split; [| split]; auto.
    eapply tokens_lowercase; eassumption.
  - eapply StronglySorted_NoDup;
      [apply keyword_order_irrefl | apply extract_keywords_sorted].
  - intros Hk. unfold extract_keywords. rewrite length_map.
    now apply slice_to_length.
Qed.

Lemma extract_keywords_filtered_witness :
  (Z.of_nat (length (extract_keywords
                       (py "The quick brown fox. Fox is quick.") 2)) <= 2)%Z.
Proof.
  apply (proj2 (proj2 (extract_keywords_filtered
                         (py "The quick brown fox. Fox is quick.") 2))).
  lia.
Defined.


(** ** The highlight selector *)

Section Positions.
Variable A : Type.



End Positions.

Section Highlights.

Lemma highlights_top (messages : list Message) :
  highlights (summarize_messages messages)
  = map make_highlight (top_messages messages).
Proof. destruct messages; reflexivity. Qed.



End Highlights.



Lemma highlight_content_spec (body : str) :
  highlight_content body
  = firstn 200 body ++ (if 200 <? length body then py "..." else [])
  /\ highlight_content body
     = (if length body <=? 200 then body else firstn 200 body ++ py "...").
Proof.
  unfold highlight_content, slice_to. simpl (0 <=? 200)%Z.
  change (Z.to_nat 200) with 200.
  destruct (200 <? length body) eqn:E.
  - apply Nat.ltb_lt in E as E'.
    assert (E1 : (200 <? Z.of_nat (length body))%Z = true)
      by (apply Z.ltb_lt; lia).
    assert (E2 : (length body <=? 200) = false)
      by (apply Nat.leb_gt; lia).
    rewrite E1, E2. auto.
  - apply Nat.ltb_ge in E as E'.
    assert (E1 : (200 <? Z.of_nat (length body))%Z = false)
      by (apply Z.ltb_ge; lia).
    assert (E2 : (length body <=? 200) = true)
      by (apply Nat.leb_le; lia).
    rewrite E1, E2, app_nil_r, firstn_all2 by assumption. auto.
Qed.

(** C5: every highlight is made from a message of the batch, and its content
    is the first 200 characters of the body followed by "..." exactly when
    the body is longer than 200 characters; a body of at most 200 characters
    is the content, unchanged. *)
Theorem highlight_truncation (messages : list Message) :
  Forall2
    (fun (entry : Message * Z) (h : Highlight) =>
       let body := content (fst entry) in
       In (fst entry) messages
       /\ hl_content h
          = firstn 200 body ++ (if 200 <? length body then py "..." else [])
       /\ hl_content h
          = (if length body <=? 200 then body
             else firstn 200 body ++ py "..."))
    (top_messages messages)
    (highlights (summarize_messages messages)).
Proof.
  rewrite highlights_top.
  assert (Hin : Forall (fun e : Message * Z => In (fst e) messages)
                  (top_messages messages)).
  { rewrite Forall_forall. intros e He.
    unfold top_messages in He.
    apply slice_to_incl, sorted_desc_In in He.
    unfold messages_with_score in He.
    apply in_map_iff in He as (m & <- & Hm). exact Hm. }
  induction Hin as [|e l He Hl IH]; simpl; constructor; auto.
  destruct (highlight_content_spec (content (fst e))) as [H1 H2].
  simpl. auto.
Qed.

(** ** The watermark store *)

Section StoreFacts.
Variable env : Env.

Lemma get_last_summary_timestamp_stored (guild_id : str) (w : World)
  (t : instant) :
  db_get_fault env = None -> watermark w guild_id = Some t ->
  get_last_summary_timestamp env guild_id w = (Returns t, w).
Proof.
  intros Hf Hw.
  unfold get_last_summary_timestamp, bind, try_except, doc_get, ret.
  rewrite Hf. unfold watermark in Hw.
  destruct (store w guild_id) as [d |]; [| discriminate].
  now rewrite Hw.
Qed.

Lemma get_last_summary_timestamp_absent (guild_id : str) (w : World) :
  db_get_fault env = None -> watermark w guild_id = None ->
  get_last_summary_timestamp env guild_id w
  = (Returns (time_at env (clock w) - timedelta_hours 24)%Z, tick w).
Proof.
  intros Hf Hw.
  unfold get_last_summary_timestamp, bind, try_except, doc_get, ret, utcnow.
  rewrite Hf. unfold watermark in Hw.
  destruct (store w guild_id) as [d |]; [now rewrite Hw | reflexivity].
Qed.

Lemma get_last_summary_timestamp_fault (guild_id : str) (w : World)
  (e : exn) :
  db_get_fault env = Some e ->
  get_last_summary_timestamp env guild_id w
  = (Returns (time_at env (clock w) - timedelta_hours 24)%Z,
     tick (add_log (LogError (py "Error getting last summary timestamp: "
                              ++ exn_str e)) w)).
Proof.
  intros Hf.
  unfold get_last_summary_timestamp, bind, try_except, doc_get, ret, utcnow,
    logger_error.
  now rewrite Hf.
Qed.

(** The lookup returns, and changes neither the store nor the record of
    writes. *)
Lemma get_last_summary_timestamp_returns (guild_id : str) (w : World) :
  exists (t : instant) (w1 : World),
    get_last_summary_timestamp env guild_id w = (Returns t, w1)
    /\ store w1 = store w /\ set_calls w1 = set_calls w
    /\ clock w <= clock w1.
Proof.
  destruct (db_get_fault env) as [e |] eqn:Hf.
  - rewrite (get_last_summary_timestamp_fault _ _ Hf).
    do 2 eexists. split; [reflexivity |]. simpl. auto.
  - destruct (watermark w guild_id) as [t |] eqn:Hw.
    + rewrite (get_last_summary_timestamp_stored _ _ Hf Hw).
      do 2 eexists. split; [reflexivity |]. auto.
    + rewrite (get_last_summary_timestamp_absent _ _ Hf Hw).
      do 2 eexists. split; [reflexivity |]. simpl. auto.
Qed.

Lemma update_last_summary_timestamp_ok (guild_id : str) (t : instant)
  (w : World) :
  db_set_fault env = None ->
  update_last_summary_timestamp env guild_id t w
  = (Returns tt,
     {| store :=
          store_set (store w) guild_id
            {| last_summary := Some t;
               updated_at := Some (server_timestamp env) |};
        log := log w; clock := clock w;
        set_calls := set_calls w ++ [(guild_id, t)] |}).
Proof.
  intros Hf. unfold update_last_summary_timestamp, try_except, doc_set.
  now rewrite Hf.
Qed.

Lemma update_last_summary_timestamp_fault (guild_id : str) (t : instant)
  (w : World) (e : exn) :
  db_set_fault env = Some e ->
  update_last_summary_timestamp env guild_id t w
  = (Returns tt,
     {| store := store w;
        log := log w ++ [LogError (py "Error updating last summary timestamp: "
                                   ++ exn_str e)];
        clock := clock w;
        set_calls := set_calls w ++ [(guild_id, t)] |}).
Proof.
  intros Hf.
  unfold update_last_summary_timestamp, try_except, doc_set, logger_error.
  now rewrite Hf.
Qed.

(** The update returns, calls [set] once with the instant it was given, and
    leaves the clock alone. *)
Lemma update_last_summary_timestamp_returns (guild_id : str) (t : instant)
  (w : World) :
  exists w' : World,
    update_last_summary_timestamp env guild_id t w = (Returns tt, w')
    /\ set_calls w' = set_calls w ++ [(guild_id, t)]
    /\ clock w' = clock w
    /\ (exists extra, log w' = log w ++ extra)
    /\ (db_set_fault env = None -> watermark w' guild_id = Some t)
    /\ (db_set_fault env <> None -> store w' = store w).
Proof.
  destruct (db_set_fault env) as [e |] eqn:Hf.
  - rewrite (update_last_summary_timestamp_fault _ _ _ Hf).
    eexists. split; [reflexivity |]. simpl.
    repeat split; eauto; discriminate.
  - rewrite (update_last_summary_timestamp_ok _ _ _ Hf).
    eexists. split; [reflexivity |]. simpl.
    repeat split; eauto.
    + exists []. now rewrite app_nil_r.
    + intros _. unfold watermark, store_set. simpl.
      now destruct (str_eq_dec guild_id guild_id).
    + congruence.
Qed.

End StoreFacts.

(** C6: the lookup of the watermark always returns to its caller: the
    stored instant when the read succeeds and the document holds one, and
    the instant 24 hours before the clock reading when there is no document
    or no stored instant, and when the read raises (which is logged). *)
Theorem get_last_summary_timestamp_total (env : Env) (guild_id : str)
  (w : World) :
  (exists (t : instant) (w1 : World),
     get_last_summary_timestamp env guild_id w = (Returns t, w1))
  /\ (forall t : instant,
        db_get_fault env = None -> watermark w guild_id = Some t ->
        fst (get_last_summary_timestamp env guild_id w) = Returns t)
  /\ (db_get_fault env = None -> watermark w guild_id = None ->
      fst (get_last_summary_timestamp env guild_id w)
      = Returns (time_at env (clock w) - 24 * 3600 * 1000000)%Z)
  /\ (forall e : exn,
        db_get_fault env = Some e ->
        fst (get_last_summary_timestamp env guild_id w)
        = Returns (time_at env (clock w) - 24 * 3600 * 1000000)%Z
        /\ In (LogError (py "Error getting last summary timestamp: "
                         ++ exn_str e))
             (log (snd (get_last_summary_timestamp env guild_id w)))).
Proof.
  split; [| split; [| split]].
  - destruct (get_last_summary_timestamp_returns env guild_id w)
      as (t & w1 & H & _).
    eauto.
  - intros t Hf Hw.
    now rewrite (get_last_summary_timestamp_stored _ _ _ Hf Hw).
  - intros Hf Hw.
    now rewrite (get_last_summary_timestamp_absent _ _ _ Hf Hw).
  - intros e Hf.
    rewrite (get_last_summary_timestamp_fault _ _ _ Hf). simpl.
    split; [reflexivity |]. apply in_or_app. right. now left.
Qed.

Lemma get_last_summary_timestamp_total_witness :
  fst (get_last_summary_timestamp sample_env sample_id sample_world)
  = Returns 100%Z
  /\ fst (get_last_summary_timestamp sample_env sample_id empty_world)
     = Returns (2000000000000 - 24 * 3600 * 1000000)%Z
  /\ fst (get_last_summary_timestamp read_fault_env sample_id sample_world)
     = Returns (2000000000000 - 24 * 3600 * 1000000)%Z.
Proof.
  split; [| split].
  - apply (proj1 (proj2 (get_last_summary_timestamp_total
                           sample_env sample_id sample_world)));
      reflexivity.
  - apply (proj1 (proj2 (proj2 (get_last_summary_timestamp_total
                                  sample_env sample_id empty_world))));
      reflexivity.
  - apply (proj2 (proj2 (proj2 (get_last_summary_timestamp_total
                                  read_fault_env sample_id sample_world)))
             (OtherError (py "503 unavailable"))).
    reflexivity.
Defined.

(** ** The run *)

Section RunFacts.
Variable env : Env.

Lemma process_channel_spec (last : instant) (c : Channel) (acc : Totals)
  (w : World) :
  process_channel env last c acc w
  = (Returns (channel_totals env last c acc),
     {| store := store w; log := log w ++ channel_log env last c;
        clock := S (clock w); set_calls := set_calls w |}).
Proof.
  unfold process_channel, try_except, bind, channel_history, channel_totals,
    channel_log, logger_warning, logger_error, ret, add_log, tick.
  destruct (history env c last) as [[|m ms] | [what | what]]; simpl;
    now rewrite ?app_nil_r.
Qed.

Lemma for_channels_spec (last : instant) (chs : list Channel) (acc : Totals)
  (w : World) :
  for_channels env last chs acc w
  = (Returns (loop_totals env last chs acc),
     {| store := store w; log := log w ++ loop_log env last chs;
        clock := clock w + length chs; set_calls := set_calls w |}).
Proof.
  revert acc w. induction chs as [|c chs IH]; intros acc w; simpl.
  - unfold ret. destruct w; simpl. now rewrite app_nil_r, Nat.add_0_r.
  - unfold bind. rewrite process_channel_spec, IH. simpl.
    rewrite <- app_assoc. repeat f_equal. lia.
Qed.

(** The run on a resolved guild returns a summary: its period runs from the
    lower bound to the reading taken right after the lookup, its totals are
    those of the loop, and the world is the one the update leaves. *)
Lemma summarize_guild_spec (guild_id : str) (g : Guild) (w : World)
  (last : instant) (w1 : World) :
  get_last_summary_timestamp env guild_id w = (Returns last, w1) ->
  let chs := filter ch_is_text (g_channels g) in
  summarize_guild env guild_id g w
  = (Returns (SummaryResult
                (guild_summary_of guild_id g last (time_at env (clock w1))
                   (loop_totals env last chs no_totals))),
     snd (update_last_summary_timestamp env guild_id (time_at env (clock w1))
            {| store := store w1; log := log w1 ++ loop_log env last chs;
               clock := S (clock w1) + length chs;
               set_calls := set_calls w1 |})).
Proof.
  intros Hget chs. unfold summarize_guild, bind. rewrite Hget.
  unfold utcnow. fold chs. rewrite for_channels_spec. simpl.
  match goal with
  | |- context [update_last_summary_timestamp env guild_id ?t ?w0] =>
      destruct (update_last_summary_timestamp_returns env guild_id t w0)
        as (w' & -> & _)
  end.
  reflexivity.
Qed.

Lemma get_guild_summary_resolved (guild_id : str) (g : Guild) (w : World) :
  get_guild env guild_id = Returns (Some g) ->
  get_guild_summary env guild_id w = summarize_guild env guild_id g w.
Proof.
  intros Hg.
  destruct (get_last_summary_timestamp_returns env guild_id w)
    as (last & w1 & Hget & _).
  unfold get_guild_summary, try_except, bind, bot_get_guild. rewrite Hg.
  now rewrite (summarize_guild_spec guild_id g w Hget).
Qed.

Lemma lower_bound_spec (guild_id : str) (w : World) :
  exists w1 : World,
    get_last_summary_timestamp env guild_id w
    = (Returns (lower_bound env guild_id w), w1)
    /\ store w1 = store w /\ set_calls w1 = set_calls w
    /\ clock w1 = start_tick env guild_id w.
Proof.
  destruct (get_last_summary_timestamp_returns env guild_id w)
    as (t & w1 & Hget & Hs & Hc & _).
  exists w1. unfold lower_bound, start_tick. rewrite Hget. simpl. auto.
Qed.

End RunFacts.

Section LoopFacts.
Variable env : Env.
Variable last : instant.

Lemma loop_totals_app (l1 l2 : list Channel) (acc : Totals) :
  loop_totals env last (l1 ++ l2) acc
  = loop_totals env last l2 (loop_totals env last l1 acc).
Proof. apply fold_left_app. Qed.

Lemma loop_log_app (l1 l2 : list Channel) :
  loop_log env last (l1 ++ l2) = loop_log env last l1 ++ loop_log env last l2.
Proof. apply flat_map_app. Qed.

Lemma sum_messages_app (l1 l2 : list ChannelSummary) :
  sum_messages (l1 ++ l2) = (sum_messages l1 + sum_messages l2)%Z.
Proof.
  unfold sum_messages. induction l1 as [|x l1 IH]; simpl; [reflexivity |].
  rewrite IH. lia.
Qed.

(** The totals of the loop list channels that had messages, and count
    them. *)
Lemma loop_totals_counts (chs : list Channel) (acc : Totals) :
  Forall (fun cs => (0 < total_messages (summary cs))%Z) (acc_summaries acc) ->
  acc_active acc = Z.of_nat (length (acc_summaries acc)) ->
  acc_messages acc = sum_messages (acc_summaries acc) ->
  let acc' := loop_totals env last chs acc in
  Forall (fun cs => (0 < total_messages (summary cs))%Z) (acc_summaries acc')
  /\ acc_active acc' = Z.of_nat (length (acc_summaries acc'))
  /\ acc_messages acc' = sum_messages (acc_summaries acc').
Proof.
  revert acc. induction chs as [|c chs IH]; intros acc Hpos Hact Hsum; simpl.
  - auto.
  - apply IH; unfold channel_totals;
      destruct (history env c last) as [[|m ms] | e]; auto; simpl.
    + apply Forall_app. split; [assumption |].
      constructor; [| constructor]. simpl. lia.
    + rewrite length_app, Hact. simpl. lia.
    + rewrite sum_messages_app, Hsum. unfold sum_messages. simpl. lia.
Qed.

Lemma filter_text_middle (pre post : list Channel) (c : Channel) :
  filter ch_is_text (pre ++ c :: post)
  = filter ch_is_text pre
    ++ (if ch_is_text c then [c] else []) ++ filter ch_is_text post.
Proof.
  rewrite filter_app. simpl. now destruct (ch_is_text c).
Qed.

(** A channel whose fetch gives no messages, or raises, leaves the totals
    as they are. *)
Lemma loop_totals_skip (pre post : list Channel) (c : Channel) (acc : Totals) :
  (forall m ms, history env c last <> Returns (m :: ms)) ->
  loop_totals env last (filter ch_is_text (pre ++ c :: post)) acc
  = loop_totals env last (filter ch_is_text (pre ++ post)) acc.
Proof.
  intros Hc. rewrite filter_text_middle, filter_app, !loop_totals_app.
  f_equal. destruct (ch_is_text c); simpl; auto.
  unfold channel_totals.
  destruct (history env c last) as [[|m ms] | e]; auto.
  now destruct (Hc m ms).
Qed.

Lemma loop_log_skip (pre post : list Channel) (c : Channel) :
  (forall e, history env c last <> Raises e) ->
  loop_log env last (filter ch_is_text (pre ++ c :: post))
  = loop_log env last (filter ch_is_text (pre ++ post)).
Proof.
  intros Hc. rewrite filter_text_middle, filter_app, !loop_log_app.
  f_equal. destruct (ch_is_text c); simpl; auto.
  unfold channel_log.
  destruct (history env c last) as [l | e]; auto.
  now destruct (Hc e).
Qed.

End LoopFacts.

Section Resolved.
Variable env : Env.

(** The whole outcome of a run on a resolved guild. *)
Lemma run_resolved (guild_id : str) (g : Guild) (w : World) :
  get_guild env guild_id = Returns (Some g) ->
  let last := lower_bound env guild_id w in
  let chs := filter ch_is_text (g_channels g) in
  exists w' : World,
    get_guild_summary env guild_id w
    = (Returns (SummaryResult
                  (guild_summary_of guild_id g last
                     (run_start env guild_id w)
                     (loop_totals env last chs no_totals))),
       w')
    /\ store w'
       = commit_store env guild_id (run_start env guild_id w) (store w)
    /\ log w'
       = log (snd (get_last_summary_timestamp env guild_id w))
         ++ loop_log env last chs ++ commit_log env
    /\ clock w' = S (start_tick env guild_id w) + length chs
    /\ set_calls w'
       = set_calls w ++ [(guild_id, run_start env guild_id w)].
Proof.
  intros Hg last chs.
  destruct (lower_bound_spec env guild_id w) as (w1 & Hget & Hs & Hc & Hk).
  erewrite get_guild_summary_resolved by exact Hg.
  erewrite summarize_guild_spec by exact Hget.
  unfold run_start. rewrite <- Hk, Hget. simpl.
  eexists. split; [reflexivity |].
  unfold commit_store, commit_log.
  destruct (db_set_fault env) as [e |] eqn:Hf.
  - erewrite update_last_summary_timestamp_fault by exact Hf. simpl.
    rewrite Hs, Hc, <- app_assoc. auto.
  - erewrite update_last_summary_timestamp_ok by exact Hf. simpl.
    rewrite Hs, Hc, app_nil_r. auto.
Qed.

(** The outcome of a run on a guild the platform does not resolve. *)
Lemma run_unresolved (guild_id : str) (w : World) :
  (forall g, get_guild env guild_id <> Returns (Some g)) ->
  exists (cause : str) (w' : World),
    get_guild_summary env guild_id w = (Returns (ErrorResult cause), w')
    /\ cause <> []
    /\ store w' = store w
    /\ set_calls w' = set_calls w
    /\ (get_guild env guild_id = Returns None ->
        cause = py "Guild not found" /\ w' = w)
    /\ (forall e, get_guild env guild_id = Raises e ->
        cause = py "Failed to generate summary: " ++ exn_str e).
Proof.
  intros Hno.
  unfold get_guild_summary, try_except, bind, bot_get_guild, ret,
    logger_error.
  destruct (get_guild env guild_id) as [[g |] | e] eqn:Hg.
  - now destruct (Hno g).
  - do 2 eexists. split; [reflexivity |].
    repeat split; auto; try discriminate.
  - do 2 eexists. split; [reflexivity |]. simpl.
    repeat split; auto; try discriminate. now intros e' [= ->].
Qed.

End Resolved.

(** C7: when the platform does not resolve the guild (the lookup gives
    nothing, or the id is rejected with an exception), the run returns an
    error result with a non-empty cause instead of raising, and neither
    writes the watermark nor changes the store. *)
Theorem unresolved_guild_error (env : Env) (guild_id : str) (w : World) :
  (forall g, get_guild env guild_id <> Returns (Some g)) ->
  exists (cause : str) (w' : World),
    get_guild_summary env guild_id w = (Returns (ErrorResult cause), w')
    /\ cause <> []
    /\ (get_guild env guild_id = Returns None ->
        cause = py "Guild not found")
    /\ (forall e, get_guild env guild_id = Raises e ->
        cause = py "Failed to generate summary: " ++ exn_str e)
    /\ store w' = store w
    /\ watermark w' guild_id = watermark w guild_id
    /\ set_calls w' = set_calls w.
Proof.
  intros Hno.
  destruct (run_unresolved env guild_id w Hno)
    as (cause & w' & Hrun & Hne & Hs & Hc & Hnone & Hraise).
  exists cause, w'. repeat split; auto.
  - intros H. now apply Hnone.
  - unfold watermark. now rewrite Hs.
Qed.

Lemma unresolved_guild_error_witness :
  exists (cause : str) (w' : World),
    get_guild_summary unknown_guild_env sample_id sample_world
    = (Returns (ErrorResult cause), w')
    /\ cause = py "Guild not found"
    /\ watermark w' sample_id = Some 100%Z.
Proof.
  destruct (unresolved_guild_error unknown_guild_env sample_id sample_world)
    as (cause & w' & Hrun & _ & Hcause & _ & _ & Hw & _).
  - intros g. simpl. discriminate.
  - exists cause, w'. split; [exact Hrun |]. split.
    + apply Hcause. reflexivity.
    + rewrite Hw. reflexivity.
Defined.

Section Channels.
Variable env : Env.

(** [run_resolved] for the platform resolving to [g], in terms of [env]. *)
Lemma run_resolving (guild_id : str) (g : Guild) (w : World) :
  exists w' : World,
    get_guild_summary (resolving env g) guild_id w
    = (Returns (SummaryResult
                  (guild_summary_of guild_id g (lower_bound env guild_id w)
                     (run_start env guild_id w)
                     (loop_totals env (lower_bound env guild_id w)
                        (filter ch_is_text (g_channels g)) no_totals))),
       w')
    /\ store w'
       = commit_store env guild_id (run_start env guild_id w) (store w)
    /\ log w'
       = log (snd (get_last_summary_timestamp env guild_id w))
         ++ loop_log env (lower_bound env guild_id w)
              (filter ch_is_text (g_channels g))
         ++ commit_log env
    /\ clock w'
       = S (start_tick env guild_id w)
         + length (filter ch_is_text (g_channels g))
    /\ set_calls w'
       = set_calls w ++ [(guild_id, run_start env guild_id w)].
Proof.
  exact (@run_resolved (resolving env g) guild_id g w eq_refl).
Qed.

Lemma loop_totals_counted (last : instant) (chs : list Channel) :
  let acc := loop_totals env last chs no_totals in
  Forall (fun cs => (0 < total_messages (summary cs))%Z) (acc_summaries acc)
  /\ acc_active acc = Z.of_nat (length (acc_summaries acc))
  /\ acc_messages acc = sum_messages (acc_summaries acc).
Proof.
  apply loop_totals_counts; simpl; auto.
Qed.

Lemma loop_log_In (last : instant) (pre post : list Channel) (c : Channel)
  (e : exn) :
  ch_is_text c = true -> history env c last = Raises e ->
  In (skip_entry c e)
    (loop_log env last (filter ch_is_text (pre ++ c :: post))).
Proof.
  intros Ht He. rewrite filter_text_middle, Ht, !loop_log_app.
  apply in_or_app. right. apply in_or_app. left.
  simpl. unfold channel_log. rewrite He.
  destruct e; simpl; auto.
Qed.

End Channels.

(** C8: a channel whose fetch after the watermark gives no message leaves
    the run as it would be without that channel: same summary (channel list,
    active-channel count and message count), same store, log and writes.
    Every listed channel has at least one message, the active-channel count
    is the length of the list and the message count is the sum over the
    list. *)
Theorem empty_channel_omitted (env : Env) (guild_id : str) (name : str)
  (pre post : list Channel) (c : Channel) (w : World) :
  history env c (lower_bound env guild_id w) = Returns [] ->
  exists (d : GuildSummary) (w1 w2 : World),
    get_guild_summary
      (resolving env {| g_name := name; g_channels := pre ++ c :: post |})
      guild_id w
    = (Returns (SummaryResult d), w1)
    /\ get_guild_summary
         (resolving env {| g_name := name; g_channels := pre ++ post |})
         guild_id w
       = (Returns (SummaryResult d), w2)
    /\ store w1 = store w2 /\ log w1 = log w2
    /\ set_calls w1 = set_calls w2
    /\ Forall (fun cs => (0 < total_messages (summary cs))%Z)
         (channel_summaries d)
    /\ total_channels_with_activity d
       = Z.of_nat (length (channel_summaries d))
    /\ guild_total_messages d = sum_messages (channel_summaries d).
Proof.
  intros Hc.
  set (last := lower_bound env guild_id w) in *.
  destruct (run_resolving env guild_id
              {| g_name := name; g_channels := pre ++ c :: post |} w)
    as (w1 & H1 & Hs1 & Hl1 & _ & Hc1).
  destruct (run_resolving env guild_id
              {| g_name := name; g_channels := pre ++ post |} w)
    as (w2 & H2 & Hs2 & Hl2 & _ & Hc2).
  simpl g_channels in *. fold last in H1, H2, Hl1, Hl2.
  assert (Ht : loop_totals env last
                 (filter ch_is_text (pre ++ c :: post)) no_totals
               = loop_totals env last
                   (filter ch_is_text (pre ++ post)) no_totals).
  { apply loop_totals_skip. intros m ms. rewrite Hc. discriminate. }
  assert (Hl : loop_log env last (filter ch_is_text (pre ++ c :: post))
               = loop_log env last (filter ch_is_text (pre ++ post))).
  { apply loop_log_skip. intros e. rewrite Hc. discriminate. }
  rewrite Ht in H1. rewrite Hl in Hl1.
  do 3 eexists. split; [exact H1 |]. split; [exact H2 |].
  split; [congruence |]. split; [congruence |]. split; [congruence |].
  unfold guild_summary_of. simpl.
  apply loop_totals_counted.
Qed.

Lemma empty_channel_omitted_witness :
  exists (d : GuildSummary) (w1 w2 : World),
    get_guild_summary
      (resolving sample_env
         {| g_name := py "guild";
            g_channels := [sample_general] ++ sample_quiet :: [sample_staff] |})
      sample_id sample_world
    = (Returns (SummaryResult d), w1)
    /\ get_guild_summary
         (resolving sample_env
            {| g_name := py "guild";
               g_channels := [sample_general] ++ [sample_staff] |})
         sample_id sample_world
       = (Returns (SummaryResult d), w2).
Proof.
  destruct (@empty_channel_omitted sample_env sample_id (py "guild")
              [sample_general] [sample_staff] sample_quiet sample_world)
    as (d & w1 & w2 & H1 & H2 & _).
  - reflexivity.
  - exists d, w1, w2. split; assumption.
Defined.

(** C9: a channel whose fetch raises, for lack of permission or for any
    other error, is skipped with a log entry: the run still returns a
    summary, the one it returns without that channel, every other channel
    being processed, with the same store and the same writes. *)
Theorem failed_channel_skipped (env : Env) (guild_id : str) (name : str)
  (pre post : list Channel) (c : Channel) (e : exn) (w : World) :
  ch_is_text c = true ->
  history env c (lower_bound env guild_id w) = Raises e ->
  exists (d : GuildSummary) (w1 w2 : World),
    get_guild_summary
      (resolving env {| g_name := name; g_channels := pre ++ c :: post |})
      guild_id w
    = (Returns (SummaryResult d), w1)
    /\ get_guild_summary
         (resolving env {| g_name := name; g_channels := pre ++ post |})
         guild_id w
       = (Returns (SummaryResult d), w2)
    /\ channel_summaries d
       = acc_summaries
           (loop_totals env (lower_bound env guild_id w)
              (filter ch_is_text (pre ++ post)) no_totals)
    /\ In (skip_entry c e) (log w1)
    /\ store w1 = store w2
    /\ set_calls w1 = set_calls w2.
Proof.
  intros Htext Hc.
  set (last := lower_bound env guild_id w) in *.
  destruct (run_resolving env guild_id
              {| g_name := name; g_channels := pre ++ c :: post |} w)
    as (w1 & H1 & Hs1 & Hl1 & _ & Hc1).
  destruct (run_resolving env guild_id
              {| g_name := name; g_channels := pre ++ post |} w)
    as (w2 & H2 & Hs2 & Hl2 & _ & Hc2).
  simpl g_channels in *. fold last in H1, H2, Hl1, Hl2.
  assert (Ht : loop_totals env last
                 (filter ch_is_text (pre ++ c :: post)) no_totals
               = loop_totals env last
                   (filter ch_is_text (pre ++ post)) no_totals).
  { apply loop_totals_skip. intros m ms. rewrite Hc. discriminate. }
  rewrite Ht in H1.
  do 3 eexists. split; [exact H1 |]. split; [exact H2 |].
  split; [reflexivity |]. split; [| split; congruence].
  rewrite Hl1. apply in_or_app. right. apply in_or_app. left.
  now apply loop_log_In.
Qed.

Lemma failed_channel_skipped_witness :
  exists (d : GuildSummary) (w1 w2 : World),
    get_guild_summary
      (resolving sample_env
         {| g_name := py "guild";
            g_channels := [] ++ sample_staff :: [sample_general] |})
      sample_id sample_world
    = (Returns (SummaryResult d), w1)
    /\ map channel_name (channel_summaries d) = [py "general"]
    /\ In (LogWarning (py "No permission to read channel staff")) (log w1).
Proof.
  destruct (@failed_channel_skipped sample_env sample_id (py "guild")
              [] [sample_general] sample_staff
              (Forbidden (py "403 Forbidden")) sample_world)
    as (d & w1 & w2 & H1 & _ & Hd & Hlog & _).
  - reflexivity.
  - reflexivity.
  - exists d, w1, w2. split; [exact H1 |]. split; [| exact Hlog].
    rewrite Hd. vm_compute. reflexivity.
Defined.

(** ** The commit of the watermark *)

Section Commit.

Lemma commit_store_ok (env : Env) (guild_id : str) (t : instant) (s : Store) :
  db_set_fault env = None ->
  match commit_store env guild_id t s guild_id with
  | Some d => last_summary d
  | None => None
  end = Some t.
Proof.
  intros Hf. unfold commit_store, store_set. rewrite Hf.
  now destruct (str_eq_dec guild_id guild_id).
Qed.

(** The start instant of a run depends on the clock and on the lookup of
    the watermark only: not on the guild, its channels or their messages. *)
Lemma run_start_clock_only (env env2 : Env) (guild_id : str) (w : World) :
  time_at env2 = time_at env -> db_get_fault env2 = db_get_fault env ->
  run_start env2 guild_id w = run_start env guild_id w.
Proof.
  intros Ht Hf. unfold run_start, start_tick. rewrite Ht.
  destruct (db_get_fault env) as [e |] eqn:He.
  - erewrite !get_last_summary_timestamp_fault by eassumption. reflexivity.
  - destruct (watermark w guild_id) as [t |] eqn:Hw.
    + erewrite !get_last_summary_timestamp_stored by eassumption.
      reflexivity.
    + erewrite !get_last_summary_timestamp_absent by eassumption.
      reflexivity.
Qed.

(** Once a watermark not earlier than [T] is stored, and as long as the
    clock of no later call is behind [T], the stored watermark stays not
    earlier than [T], and every later call that reads the store has a lower
    bound not earlier than [T]. *)
Lemma later_windows (T : instant) (guild_id : str) (later : list Env) :
  forall w : World,
    (exists t, watermark w guild_id = Some t /\ (T <= t)%Z) ->
    Forall (fun e => forall n, (T <= time_at e n)%Z) later ->
    Forall2 (fun e r => db_get_fault e = None ->
                        forall d, r = Returns (SummaryResult d) ->
                                  (T <= period_from d)%Z)
      later (fst (run_sequence later guild_id w)).
Proof.
  induction later as [|e later IH]; intros w (t & Hw & HT) Hall; simpl.
  - constructor.
  - inversion Hall as [|? ? Hclock Hrest]; subst.
    destruct (get_guild_summary e guild_id w) as [r w1] eqn:Hrun.
    destruct (run_sequence later guild_id w1) as [rs w2] eqn:Hseq.
    simpl.
    assert (Hstep : (db_get_fault e = None ->
                     forall d, r = Returns (SummaryResult d) ->
                               (T <= period_from d)%Z)
                    /\ exists t1, watermark w1 guild_id = Some t1
                                  /\ (T <= t1)%Z).
    { destruct (get_guild e guild_id) as [[g |] | x] eqn:Hg.
      - destruct (run_resolved e guild_id w Hg)
          as (w' & Hrun' & Hs & _).
        rewrite Hrun in Hrun'. injection Hrun' as -> ->.
        split.
        + intros Hread d [= <-]. simpl.
          unfold lower_bound.
          erewrite get_last_summary_timestamp_stored by eassumption.
          exact HT.
        + unfold watermark. rewrite Hs. unfold commit_store.
          destruct (db_set_fault e).
          * exists t. split; [exact Hw | exact HT].
          * exists (run_start e guild_id w). split.
            -- unfold store_set.
               now destruct (str_eq_dec guild_id guild_id).
            -- apply Hclock.
      - destruct (run_unresolved e guild_id w)
          as (cause & w' & Hrun' & _ & Hs & _).
        { intros g. rewrite Hg. discriminate. }
        rewrite Hrun in Hrun'. injection Hrun' as -> ->.
        split; [discriminate |].
        exists t. unfold watermark in *. rewrite Hs. auto.
      - destruct (run_unresolved e guild_id w)
          as (cause & w' & Hrun' & _ & Hs & _).
        { intros g. rewrite Hg. discriminate. }
        rewrite Hrun in Hrun'. injection Hrun' as -> ->.
        split; [discriminate |].
        exists t. unfold watermark in *. rewrite Hs. auto. }
    destruct Hstep as [Hr Hw1].
    constructor; [exact Hr |].
    specialize (IH w1 Hw1 Hrest). now rewrite Hseq in IH.
Qed.

(** A refused write: the store stays, the error is logged. *)
Lemma commit_refused (env : Env) (guild_id : str) (t : instant) (s : Store)
  (e : exn) :
  db_set_fault env = Some e ->
  commit_store env guild_id t s = s
  /\ commit_log env
     = [LogError (py "Error updating last summary timestamp: "
                  ++ exn_str e)].
Proof.
  intros Hf. unfold commit_store, commit_log. now rewrite Hf.
Qed.

(** What a resolved run takes as lower bound when it reads a stored
    watermark. *)
Lemma lower_bound_stored (env : Env) (guild_id : str) (w : World)
  (t : instant) :
  db_get_fault env = None -> watermark w guild_id = Some t ->
  lower_bound env guild_id w = t.
Proof.
  intros Hf Hw. unfold lower_bound.
  now erewrite get_last_summary_timestamp_stored by eassumption.
Qed.

End Commit.

(** C3, as the spec states it, fails when the store refuses the write: the
    run resolves the guild, returns its summary and calls [set] with the
    start instant, the error is logged, and the watermark stays at 100. *)
Lemma watermark_not_overwritten :
  get_guild write_fault_env sample_id = Returns (Some sample_guild)
  /\ exists (d : GuildSummary) (w' : World),
       get_guild_summary write_fault_env sample_id sample_world
       = (Returns (SummaryResult d), w')
       /\ set_calls w' = [(sample_id, 2000000000000%Z)]
       /\ run_start write_fault_env sample_id sample_world = 2000000000000%Z
       /\ watermark w' sample_id = Some 100%Z
       /\ watermark w' sample_id
          <> Some (run_start write_fault_env sample_id sample_world).
Proof.
  split; [reflexivity |].
  destruct (@run_resolved write_fault_env sample_id sample_guild sample_world
              eq_refl)
    as (w' & Hrun & Hs & _ & _ & Hc).
  do 2 eexists. split; [exact Hrun |].
  assert (Hw : watermark w' sample_id = Some 100%Z).
  { unfold watermark. rewrite Hs. reflexivity. }
  split; [rewrite Hc; reflexivity |].
  split; [reflexivity |].
  split; [exact Hw |].
  rewrite Hw. vm_compute. discriminate.
Qed.

(** C3 (amended): when the guild resolves, whatever the store does, the
    run returns a summary and calls [set] exactly once, with its start
    instant: the clock reading taken right after the watermark lookup,
    before any channel is read, which depends on no guild, channel or
    message, while the clock has moved on by the commit.  When the store
    accepts the write the watermark is that instant; then, if what was
    stored before was not later than it (and, when nothing was stored,
    neither was the 24-hour default), a lookup after the run whose read
    succeeds returns the start instant, which is not less than what a
    lookup before the run returned.  When the store refuses the write the
    error is logged and the store, hence the watermark, is left as it
    was. *)
Theorem watermark_commit (env : Env) (guild_id : str) (g : Guild)
  (w : World) :
  get_guild env guild_id = Returns (Some g) ->
  exists (d : GuildSummary) (w' : World),
    get_guild_summary env guild_id w = (Returns (SummaryResult d), w')
    /\ set_calls w' = set_calls w ++ [(guild_id, run_start env guild_id w)]
    /\ period_to d = run_start env guild_id w
    /\ run_start env guild_id w = time_at env (start_tick env guild_id w)
    /\ clock w'
       = S (start_tick env guild_id w)
         + length (filter ch_is_text (g_channels g))
    /\ (forall env2 : Env,
          time_at env2 = time_at env ->
          db_get_fault env2 = db_get_fault env ->
          run_start env2 guild_id w = run_start env guild_id w)
    /\ (db_set_fault env = None ->
        watermark w' guild_id = Some (run_start env guild_id w)
        /\ forall before after : Env,
             db_get_fault before = None -> db_get_fault after = None ->
             (forall t, watermark w guild_id = Some t ->
                        (t <= run_start env guild_id w)%Z) ->
             (watermark w guild_id = None ->
              (time_at before (clock w) - 24 * 3600 * 1000000
               <= run_start env guild_id w)%Z) ->
             exists v0 v1 : instant,
               fst (get_last_summary_timestamp before guild_id w)
               = Returns v0
               /\ fst (get_last_summary_timestamp after guild_id w')
                  = Returns v1
               /\ v1 = run_start env guild_id w
               /\ (v0 <= v1)%Z)
    /\ (forall e : exn,
          db_set_fault env = Some e ->
          store w' = store w
          /\ watermark w' guild_id = watermark w guild_id
          /\ In (LogError (py "Error updating last summary timestamp: "
                           ++ exn_str e))
               (log w')).
Proof.
  intros Hg.
  destruct (run_resolved env guild_id w Hg)
    as (w' & Hrun & Hs & Hl & Hk & Hc).
  do 2 eexists. split; [exact Hrun |].
  split; [exact Hc |].
  split; [reflexivity |]. split; [reflexivity |]. split; [exact Hk |].
  split; [intros env2; apply run_start_clock_only |].
  split.
  - intros Hset.
    assert (Hw' : watermark w' guild_id = Some (run_start env guild_id w)).
    { unfold watermark. rewrite Hs. now apply commit_store_ok. }
    split; [exact Hw' |].
    intros before after Hb Ha Hstored Hdefault.
    erewrite (get_last_summary_timestamp_stored after) by eassumption.
    destruct (watermark w guild_id) as [t |] eqn:Hw.
    + erewrite get_last_summary_timestamp_stored by eassumption.
      do 2 eexists. repeat split. simpl. now apply Hstored.
    + erewrite get_last_summary_timestamp_absent by eassumption.
      do 2 eexists. repeat split. simpl. now apply Hdefault.
  - intros e Hset.
    destruct (commit_refused env guild_id (run_start env guild_id w)
                (store w) Hset) as [Hstore Hlog].
    rewrite Hstore in Hs. rewrite Hlog in Hl.
    split; [exact Hs |]. split; [unfold watermark; now rewrite Hs |].
    rewrite Hl. apply in_or_app. right. apply in_or_app. right. now left.
Qed.

Lemma watermark_commit_witness :
  (exists (d : GuildSummary) (w' : World),
     get_guild_summary sample_env sample_id sample_world
     = (Returns (SummaryResult d), w')
     /\ watermark w' sample_id = Some 2000000000000%Z
     /\ exists v0 v1 : instant,
          fst (get_last_summary_timestamp sample_env sample_id sample_world)
          = Returns v0
          /\ fst (get_last_summary_timestamp later_env sample_id w')
             = Returns v1
          /\ (v0 <= v1)%Z)
  /\ (exists (d : GuildSummary) (w' : World),
        get_guild_summary write_fault_env sample_id sample_world
        = (Returns (SummaryResult d), w')
        /\ set_calls w' = [(sample_id, 2000000000000%Z)]
        /\ store w' = store sample_world).
Proof.
  split.
  - destruct (@watermark_commit sample_env sample_id sample_guild
                sample_world)
      as (d & w' & Hrun & _ & _ & _ & _ & _ & Hok & _).
    + reflexivity.
    + destruct Hok as [Hw Hmono]; [reflexivity |].
      exists d, w'. split; [exact Hrun |]. split; [exact Hw |].
      destruct (Hmono sample_env later_env) as (v0 & v1 & H0 & H1 & _ & Hle).
      * reflexivity.
      * reflexivity.
      * intros t Ht. vm_compute in Ht. injection Ht as <-.
        vm_compute. discriminate.
      * intros Hnone. vm_compute in Hnone. discriminate.
      * exists v0, v1. auto.
  - destruct (@watermark_commit write_fault_env sample_id sample_guild
                sample_world)
      as (d & w' & Hrun & Hc & _ & _ & _ & _ & _ & Hfault).
    + reflexivity.
    + destruct (Hfault (OtherError (py "503 unavailable")))
        as (Hs & _); [reflexivity |].
      exists d, w'. split; [exact Hrun |]. split; [exact Hc | exact Hs].
Defined.

(** C10, as the spec states it, fails when the store refuses the write: the
    first run cannot read [staff] and keeps the watermark at 100, so the
    next run has the same lower bound and lists [staff] with the message
    created at 500, before the first run started. *)
Lemma failed_channel_retried :
  history write_fault_env sample_staff 100%Z
  = Raises (Forbidden (py "403 Forbidden"))
  /\ created_at sample_long = 500%Z
  /\ map digest_view
       (fst (run_sequence [write_fault_env; later_env] sample_id
               sample_world))
     = [Some (100%Z, 2000000000000%Z, [(py "general", 2%Z)]);
        Some (100%Z, 2000060000004%Z, [(py "staff", 1%Z)])]
  /\ in_window 100%Z sample_long.
Proof.
  split; [reflexivity |]. split; [reflexivity |].
  split; [vm_compute; reflexivity |].
  vm_compute. reflexivity.
Qed.

(** C10 (amended): when the guild resolves, the run calls [set] exactly
    once, with its start instant, whatever the channels and the store
    answer; when no channel gives a message the summary lists none and the
    call is made all the same.  When the store accepts the write the
    watermark is the start instant; then, in any sequence of later calls in
    none of which the clock is behind that instant, every call that reads
    the store has a lower bound not earlier than it: a message created up
    to the start instant, in a channel whose fetch failed or in any other,
    is in none of these windows.  When the store refuses the write the
    error is logged and the store is left as it was: a next run that
    resolves the guild and reads a stored watermark starts from that same
    watermark, the lower bound of this run when it read the store too. *)
Theorem commit_unconditional (env : Env) (guild_id : str) (g : Guild)
  (w : World) :
  get_guild env guild_id = Returns (Some g) ->
  exists (d : GuildSummary) (w' : World),
    get_guild_summary env guild_id w = (Returns (SummaryResult d), w')
    /\ set_calls w' = set_calls w ++ [(guild_id, run_start env guild_id w)]
    /\ ((forall c m ms,
           history env c (lower_bound env guild_id w) <> Returns (m :: ms)) ->
        channel_summaries d = [] /\ guild_total_messages d = 0%Z)
    /\ (db_set_fault env = None ->
        watermark w' guild_id = Some (run_start env guild_id w)
        /\ forall later : list Env,
             Forall (fun e => forall n, (run_start env guild_id w
                                         <= time_at e n)%Z)
               later ->
             Forall2 (fun e r =>
                        db_get_fault e = None ->
                        forall d', r = Returns (SummaryResult d') ->
                        (run_start env guild_id w <= period_from d')%Z
                        /\ forall m : Message,
                             (created_at m <= run_start env guild_id w)%Z ->
                             ~ in_window (period_from d') m)
               later (fst (run_sequence later guild_id w')))
    /\ (forall e : exn,
          db_set_fault env = Some e ->
          store w' = store w
          /\ In (LogError (py "Error updating last summary timestamp: "
                           ++ exn_str e))
               (log w')
          /\ forall (next : Env) (g2 : Guild) (t : instant),
               get_guild next guild_id = Returns (Some g2) ->
               db_get_fault next = None ->
               watermark w guild_id = Some t ->
               exists (d2 : GuildSummary) (w2 : World),
                 get_guild_summary next guild_id w'
                 = (Returns (SummaryResult d2), w2)
                 /\ period_from d2 = t
                 /\ (db_get_fault env = None -> period_from d = t)).
Proof.
  intros Hg.
  destruct (run_resolved env guild_id w Hg)
    as (w' & Hrun & Hs & Hl & _ & Hc).
  do 2 eexists. split; [exact Hrun |]. split; [exact Hc |]. split; [| split].
  - intros Hnone. simpl.
    assert (E : forall chs acc,
               loop_totals env (lower_bound env guild_id w) chs acc = acc).
    { induction chs as [|c chs IH]; intros acc; simpl; auto.
      rewrite <- (IH acc) at 2. f_equal.
      unfold channel_totals.
      destruct (history env c (lower_bound env guild_id w))
        as [[|m ms] | e] eqn:Hh; auto.
      now destruct (Hnone c m ms). }
    rewrite E. auto.
  - intros Hset.
    assert (Hw' : watermark w' guild_id = Some (run_start env guild_id w)).
    { unfold watermark. rewrite Hs. now apply commit_store_ok. }
    split; [exact Hw' |].
    intros later Hlater.
    eapply Forall2_impl;
      [| apply (@later_windows (run_start env guild_id w) guild_id later w');
         [exists (run_start env guild_id w); split; [exact Hw' | lia]
         | exact Hlater]].
    simpl. intros e r Hr Hread d' Hd'. specialize (Hr Hread d' Hd').
    split; [exact Hr |].
    intros m Hm. unfold in_window. lia.
  - intros e Hset.
    destruct (commit_refused env guild_id (run_start env guild_id w)
                (store w) Hset) as [Hstore Hlog].
    rewrite Hstore in Hs. rewrite Hlog in Hl.
    split; [exact Hs |]. split.
    { rewrite Hl. apply in_or_app. right. apply in_or_app. right.
      now left. }
    intros next g2 t Hg2 Hread Hw.
    destruct (run_resolved next guild_id w' Hg2) as (w2 & Hrun2 & _).
    do 2 eexists. split; [exact Hrun2 |]. simpl. split.
    + apply lower_bound_stored; [exact Hread |].
      unfold watermark in *. now rewrite Hs.
    + intros Hread0. now apply lower_bound_stored.
Qed.

Lemma commit_unconditional_witness :
  (exists (d : GuildSummary) (w' : World),
     get_guild_summary sample_env sample_id sample_world
     = (Returns (SummaryResult d), w')
     /\ set_calls w' = [(sample_id, 2000000000000%Z)]
     /\ Forall2 (fun e r =>
                   db_get_fault e = None ->
                   forall d', r = Returns (SummaryResult d') ->
                   (2000000000000 <= period_from d')%Z
                   /\ forall m : Message,
                        (created_at m <= 2000000000000)%Z ->
                        ~ in_window (period_from d') m)
          [later_env] (fst (run_sequence [later_env] sample_id w')))
  /\ (exists (d d2 : GuildSummary) (w' w2 : World),
        get_guild_summary write_fault_env sample_id sample_world
        = (Returns (SummaryResult d), w')
        /\ get_guild_summary later_env sample_id w'
           = (Returns (SummaryResult d2), w2)
        /\ period_from d2 = 100%Z /\ period_from d = 100%Z).
Proof.
  split.
  - destruct (@commit_unconditional sample_env sample_id sample_guild
                sample_world)
      as (d & w' & Hrun & Hc & _ & Hlater & _).
    + reflexivity.
    + exists d, w'. split; [exact Hrun |]. split; [exact Hc |].
      destruct Hlater as [_ Hlater]; [reflexivity |].
      apply (Hlater [later_env]).
      constructor; [| constructor].
      intros n.
      change (2000000000000 <= 2000060000000 + Z.of_nat n)%Z. lia.
  - destruct (@commit_unconditional write_fault_env sample_id sample_guild
                sample_world)
      as (d & w' & Hrun & _ & _ & _ & Hfault).
    + reflexivity.
    + destruct (Hfault (OtherError (py "503 unavailable")))
        as (_ & _ & Hnext); [reflexivity |].
      destruct (Hnext later_env sample_guild 100%Z)
        as (d2 & w2 & Hrun2 & H2 & H1); try reflexivity.
      exists d, d2, w', w2.
      split; [exact Hrun |]. split; [exact Hrun2 |].
      split; [exact H2 |]. apply H1. reflexivity.
Defined.

(** * Further properties of the code *)

(** ** The watermark store functions *)

Section StoreRoundTrip.

(** What a lookup returns, from the store and the clock. *)
Lemma lookup_value (env : Env) (guild_id : str) (w : World) :
  fst (get_last_summary_timestamp env guild_id w)
  = Returns
      match db_get_fault env, watermark w guild_id with
      | None, Some t => t
      | _, _ => (time_at env (clock w) - timedelta_hours 24)%Z
      end.
Proof.
  destruct (db_get_fault env) as [e |] eqn:Hf.
  - now erewrite get_last_summary_timestamp_fault by exact Hf.
  - destruct (watermark w guild_id) as [t |] eqn:Hw.
    + now erewrite get_last_summary_timestamp_stored by eassumption.
    + now erewrite get_last_summary_timestamp_absent by eassumption.
Qed.

Lemma lookup_same (env : Env) (guild_id : str) (w w' : World) :
  watermark w' guild_id = watermark w guild_id -> clock w' = clock w ->
  fst (get_last_summary_timestamp env guild_id w')
  = fst (get_last_summary_timestamp env guild_id w).
Proof.
  intros Hw Hc. rewrite !lookup_value. now rewrite Hw, Hc.
Qed.

(** The update always returns; it keeps the clock, and the documents of
    the other guilds. *)
Lemma update_frame (env : Env) (guild_id : str) (t : instant) (w : World) :
  exists w' : World,
    update_last_summary_timestamp env guild_id t w = (Returns tt, w')
    /\ clock w' = clock w
    /\ (forall other, other <> guild_id -> store w' other = store w other)
    /\ (db_set_fault env <> None -> store w' = store w).
Proof.
  destruct (db_set_fault env) as [e |] eqn:Hf.
  - erewrite update_last_summary_timestamp_fault by exact Hf.
    eexists. split; [reflexivity |]. simpl. auto.
  - erewrite update_last_summary_timestamp_ok by exact Hf.
    eexists. split; [reflexivity |]. simpl.
    split; [reflexivity |]. split; [| congruence].
    intros other Hne. unfold store_set.
    now destruct (str_eq_dec other guild_id).
Qed.

End StoreRoundTrip.

(** X1: a watermark written by [update_last_summary_timestamp] is the one
    [get_last_summary_timestamp] reads back, whatever was stored before
    (the last write wins), when the store accepts the write and the read;
    the lookup then changes nothing in the world. *)
Theorem watermark_round_trip (writer reader : Env) (guild_id : str)
  (t : instant) (w : World) :
  db_set_fault writer = None -> db_get_fault reader = None ->
  let w' := snd (update_last_summary_timestamp writer guild_id t w) in
  get_last_summary_timestamp reader guild_id w' = (Returns t, w').
Proof.
  intros Hset Hget w'.
  apply get_last_summary_timestamp_stored; [exact Hget |].
  subst w'. erewrite update_last_summary_timestamp_ok by exact Hset.
  unfold watermark, store_set. simpl.
  now destruct (str_eq_dec guild_id guild_id).
Qed.

Lemma watermark_round_trip_witness :
  fst (get_last_summary_timestamp sample_env sample_id
         (snd (update_last_summary_timestamp sample_env sample_id 777%Z
                 sample_world)))
  = Returns 777%Z.
Proof.
  rewrite (@watermark_round_trip sample_env sample_env sample_id 777%Z
             sample_world); reflexivity.
Defined.

(** X2: writing the watermark of one guild, accepted by the store or not,
    changes the lookup of no other guild. *)
Theorem update_other_guild (writer reader : Env) (guild_id other : str)
  (t : instant) (w : World) :
  other <> guild_id ->
  fst (get_last_summary_timestamp reader other
         (snd (update_last_summary_timestamp writer guild_id t w)))
  = fst (get_last_summary_timestamp reader other w).
Proof.
  intros Hne.
  destruct (update_frame writer guild_id t w) as (w' & -> & Hc & Hs & _).
  simpl. apply lookup_same; [| exact Hc].
  unfold watermark. now rewrite (Hs other Hne).
Qed.

Lemma update_other_guild_witness :
  fst (get_last_summary_timestamp sample_env sample_id
         (snd (update_last_summary_timestamp sample_env other_id 777%Z
                 sample_world)))
  = Returns 100%Z.
Proof.
  rewrite (@update_other_guild sample_env sample_env other_id sample_id
             777%Z sample_world).
  - reflexivity.
  - vm_compute. discriminate.
Defined.

(** X3: [update_last_summary_timestamp] never raises.  When the store
    refuses the write, one error is logged, the store is left as it was and
    every later lookup returns what it would have returned without the
    call. *)
Theorem update_fault_contained (writer : Env) (guild_id : str) (t : instant)
  (w : World) :
  (exists w', update_last_summary_timestamp writer guild_id t w
              = (Returns tt, w'))
  /\ (forall e, db_set_fault writer = Some e ->
        let w' := snd (update_last_summary_timestamp writer guild_id t w) in
        store w' = store w
        /\ log w'
           = log w
             ++ [LogError (py "Error updating last summary timestamp: "
                           ++ exn_str e)]
        /\ forall (reader : Env) (any : str),
             fst (get_last_summary_timestamp reader any w')
             = fst (get_last_summary_timestamp reader any w)).
Proof.
  split.
  - destruct (update_frame writer guild_id t w) as (w' & H & _). eauto.
  - intros e Hf w'. subst w'.
    erewrite update_last_summary_timestamp_fault by exact Hf. simpl.
    repeat split. intros reader any. now apply lookup_same.
Qed.

Lemma update_fault_contained_witness :
  store (snd (update_last_summary_timestamp write_fault_env sample_id 777%Z
                sample_world))
  = store sample_world.
Proof.
  apply (proj2 (@update_fault_contained write_fault_env sample_id 777%Z
                  sample_world) (OtherError (py "503 unavailable"))).
  reflexivity.
Defined.

(** X4: [get_last_summary_timestamp] only reads: it leaves the store and
    the record of writes as they are, whatever the store answers.  In
    particular the 24-hour default of a guild without a watermark is not
    stored: the next lookup computes it again, from the next clock
    reading. *)
Theorem lookup_read_only (env : Env) (guild_id : str) (w : World) :
  store (snd (get_last_summary_timestamp env guild_id w)) = store w
  /\ set_calls (snd (get_last_summary_timestamp env guild_id w))
     = set_calls w
  /\ (db_get_fault env = None -> watermark w guild_id = None ->
      forall next : Env,
        db_get_fault next = None ->
        fst (get_last_summary_timestamp next guild_id
               (snd (get_last_summary_timestamp env guild_id w)))
        = Returns (time_at next (S (clock w)) - 24 * 3600 * 1000000)%Z).
Proof.
  destruct (get_last_summary_timestamp_returns env guild_id w)
    as (t & w1 & Hget & Hs & Hc & _).
  rewrite Hget. simpl. split; [exact Hs |]. split; [exact Hc |].
  intros Hf Hw next Hnext.
  erewrite get_last_summary_timestamp_absent in Hget by eassumption.
  injection Hget as _ <-.
  rewrite lookup_value, Hnext.
  unfold watermark in *. simpl.
  destruct (store w guild_id) as [d |]; [now rewrite Hw | reflexivity].
Qed.

Lemma lookup_read_only_witness :
  fst (get_last_summary_timestamp later_env sample_id
         (snd (get_last_summary_timestamp sample_env sample_id empty_world)))
  = Returns (2000060000001 - 24 * 3600 * 1000000)%Z.
Proof.
  apply (proj2 (proj2 (@lookup_read_only sample_env sample_id empty_world)));
    reflexivity.
Defined.

(** ** The keyword extractor, further *)

Section KeywordFacts.

Lemma sorted_desc_length (A : Type) (key : A -> Z) (l : list A) :
  length (sorted_desc key l) = length l.
Proof. symmetry. apply Permutation_length, sorted_desc_perm. Qed.

(** The dict has one entry for each distinct token. *)
Lemma count_words_length (text : str) :
  length (count_words (split (lower text))) = distinct_tokens text.
Proof.
  unfold count_words, distinct_tokens. rewrite count_words_tokens.
  fold (tokens text).
  destruct (word_freq_spec (tokens text)) as (_ & Hk & Hs).
  simpl in Hk, Hs.
  rewrite <- (length_map fst).
  apply Permutation_length, NoDup_Permutation.
  - eapply StronglySorted_NoDup; [| exact Hs]. intros a. cbv beta. lia.
  - apply NoDup_nodup.
  - intros x. rewrite Hk. symmetry. apply nodup_In.
Qed.

Lemma lower_app (a b : str) : lower (a ++ b) = lower a ++ lower b.
Proof. apply map_app. Qed.

Lemma lower_join_space (texts : list str) :
  lower (join (py " ") texts) = join (py " ") (map lower texts).
Proof.
  induction texts as [|x l IH]; [reflexivity |].
  destruct l as [|y l]; [reflexivity |].
  change (join (py " ") (x :: y :: l))
    with (x ++ py " " ++ join (py " ") (y :: l)).
  change (join (py " ") (map lower (x :: y :: l)))
    with (lower x ++ py " " ++ join (py " ") (map lower (y :: l))).
  now rewrite !lower_app, IH.
Qed.

(** A whitespace character ends the word being read. *)
Lemma split_from_space (a b cur : str) (c : ascii) :
  isspace c = true ->
  split_from cur (a ++ c :: b) = split_from cur a ++ split_from [] b.
Proof.
  intros Hc. revert cur. induction a as [|x a IH]; intros cur; simpl.
  - rewrite Hc. now destruct cur.
  - destruct (isspace x).
    + destruct cur; simpl; now rewrite IH.
    + apply IH.
Qed.

Lemma split_join_space (texts : list str) :
  split (join (py " ") texts) = flat_map split texts.
Proof.
  induction texts as [|x l IH]; [reflexivity |].
  destruct l as [|y l].
  - simpl. now rewrite app_nil_r.
  - change (join (py " ") (x :: y :: l))
      with (x ++ " "%char :: join (py " ") (y :: l)).
    unfold split at 1. rewrite split_from_space by reflexivity.
    fold (split (join (py " ") (y :: l))). rewrite IH. reflexivity.
Qed.

Lemma flat_map_map_inner (A B C : Type) (f : B -> C) (g : A -> list B)
  (l : list A) :
  map f (flat_map g l) = flat_map (fun x => map f (g x)) l.
Proof.
  induction l as [|x l IH]; simpl; auto. now rewrite map_app, IH.
Qed.

Lemma flat_map_filter_inner (A B : Type) (p : B -> bool) (g : A -> list B)
  (l : list A) :
  filter p (flat_map g l) = flat_map (fun x => filter p (g x)) l.
Proof.
  induction l as [|x l IH]; simpl; auto. now rewrite filter_app, IH.
Qed.

(** The tokens of messages joined by a space are the tokens of the
    messages, one message after the other. *)
Lemma tokens_join (texts : list str) :
  tokens (join (py " ") texts) = flat_map tokens texts.
Proof.
  unfold tokens. rewrite lower_join_space, split_join_space.
  rewrite flat_map_map_inner, flat_map_filter_inner.
  rewrite flat_map_concat_map, map_map, <- flat_map_concat_map.
  reflexivity.
Qed.

Lemma freq_flat_map (t : str) (texts : list str) :
  freq t (flat_map tokens texts)
  = fold_right Z.add 0%Z (map (fun x => freq t (tokens x)) texts).
Proof.
  induction texts as [|x l IH]; simpl; [reflexivity |].
  now rewrite freq_app, IH.
Qed.

Lemma top_messages_exact (messages : list Message) :
  length (top_messages messages) = Nat.min 5 (length messages).
Proof.
  unfold top_messages, messages_with_score.
  change (slice_to 5) with (@firstn (Message * Z) 5).
  now rewrite length_firstn, sorted_desc_length, length_map.
Qed.

End KeywordFacts.

(** X5: the number of keywords returned is the smaller of [max_keywords]
    and the number of distinct tokens of the text when [max_keywords] is
    not negative; for a negative [max_keywords] it is the number of
    distinct tokens less [-max_keywords], and 0 if that is negative. *)
Theorem extract_keywords_count (text : str) (max_keywords : Z) :
  Z.of_nat (length (extract_keywords text max_keywords))
  = if (0 <=? max_keywords)%Z
    then Z.min max_keywords (Z.of_nat (distinct_tokens text))
    else Z.max 0 (Z.of_nat (distinct_tokens text) + max_keywords).
Proof.
  unfold extract_keywords. rewrite length_map. unfold slice_to.
  destruct (0 <=? max_keywords)%Z eqn:E;
    rewrite length_firstn, sorted_desc_length, count_words_length.
  - apply Z.leb_le in E. lia.
  - apply Z.leb_gt in E. lia.
Qed.

(** X6: asking for fewer keywords gives the beginning of the longer
    answer: for [0 <= k <= k'], the [k] keywords are the first [k] of the
    [k'] keywords. *)
Theorem extract_keywords_prefix (text : str) (k k' : Z) :
  (0 <= k <= k')%Z ->
  extract_keywords text k = firstn (Z.to_nat k) (extract_keywords text k').
Proof.
  intros [Hk Hk']. unfold extract_keywords, slice_to.
  destruct (0 <=? k)%Z eqn:E; [| apply Z.leb_gt in E; lia].
  destruct (0 <=? k')%Z eqn:E'; [| apply Z.leb_gt in E'; lia].
  rewrite <- !firstn_map, firstn_firstn.
  now replace (Nat.min (Z.to_nat k) (Z.to_nat k')) with (Z.to_nat k) by lia.
Qed.

Lemma extract_keywords_prefix_witness :
  extract_keywords (py "The quick brown fox. Fox is quick.") 1
  = firstn 1 (extract_keywords (py "The quick brown fox. Fox is quick.") 3).
Proof.
  apply (@extract_keywords_prefix
           (py "The quick brown fox. Fox is quick.") 1 3).
  lia.
Defined.

(** X7: the keywords of a channel are counted over its messages taken one
    by one: joining the bodies with a space never glues the last word of a
    message to the first word of the next, the tokens of the joined text
    are the tokens of the bodies in order, the frequency of a token is the
    sum of its frequencies in the bodies, and every keyword of a summary is
    a token of some message of the batch. *)
Theorem keywords_per_message :
  (forall texts : list str,
     tokens (join (py " ") texts) = flat_map tokens texts)
  /\ (forall (texts : list str) (t : str),
        freq t (tokens (join (py " ") texts))
        = fold_right Z.add 0%Z (map (fun x => freq t (tokens x)) texts))
  /\ (forall (messages : list Message) (t : str),
        In t (keywords (summarize_messages messages)) ->
        exists m, In m messages /\ In t (tokens (content m))).
Proof.
  split; [exact tokens_join |]. split.
  - intros texts t. now rewrite tokens_join, freq_flat_map.
  - intros messages t Ht.
    destruct messages as [|m0 l]; [destruct Ht |].
    set (messages := m0 :: l) in *.
    change (In t (extract_keywords
                    (join (py " ") (map content messages)) 5)) in Ht.
    apply extract_keywords_tokens in Ht.
    rewrite tokens_join in Ht.
    apply in_flat_map in Ht as (x & Hx & Hin).
    apply in_map_iff in Hx as (m & <- & Hm). eauto.
Qed.

Lemma keywords_per_message_witness :
  exists m, In m [sample_long; sample_liked]
            /\ In (repeat "a"%char 50) (tokens (content m)).
Proof.
  apply (proj2 (proj2 keywords_per_message) [sample_long; sample_liked]).
  vm_compute. auto.
Defined.

(** X8: a summary counts every message of the batch, has exactly
    [min 5 n] highlights for a batch of [n] messages, and at most 5
    keywords. *)
Theorem summarize_messages_counts (messages : list Message) :
  total_messages (summarize_messages messages)
  = Z.of_nat (length messages)
  /\ length (highlights (summarize_messages messages))
     = Nat.min 5 (length messages)
  /\ length (keywords (summarize_messages messages)) <= 5.
Proof.
  split; [now destruct messages |]. split.
  - rewrite highlights_top, length_map. apply top_messages_exact.
  - destruct messages as [|m l]; [simpl; lia |].
    set (text := join (py " ") (map content (m :: l))).
    change (length (extract_keywords text 5) <= 5).
    unfold extract_keywords. rewrite length_map.
    pose proof (@slice_to_length _ 5
                  (sorted_desc (@snd str Z) (count_words (split (lower text))))).
    lia.
Qed.

(** ** The run, further *)

Section RunShape.
Variable env : Env.
Variable last : instant.

Lemma summarize_messages_total (messages : list Message) :
  total_messages (summarize_messages messages)
  = Z.of_nat (length messages).
Proof. now destruct messages. Qed.

Lemma channel_totals_fetched (c : Channel) (acc : Totals) :
  channel_totals env last c acc
  = match fetched env last c with
    | [] => acc
    | _ => add_channel c (summarize_messages (fetched env last c)) acc
    end.
Proof.
  unfold channel_totals, fetched.
  now destruct (history env c last) as [[|m ms] | e].
Qed.

(** The three totals of the loop over [chs], in closed form. *)
Lemma loop_totals_closed (chs : list Channel) (acc : Totals) :
  let shown :=
    filter (fun c => match fetched env last c with
                     | [] => false
                     | _ => true
                     end) chs in
  acc_summaries (loop_totals env last chs acc)
  = acc_summaries acc ++ map (channel_entry env last) shown
  /\ acc_messages (loop_totals env last chs acc)
     = (acc_messages acc
        + fold_right Z.add 0
            (map (fun c => Z.of_nat (length (fetched env last c))) shown))%Z
  /\ acc_active (loop_totals env last chs acc)
     = (acc_active acc + Z.of_nat (length shown))%Z.
Proof.
  revert acc. induction chs as [|c chs IH]; intros acc; simpl.
  - rewrite app_nil_r. repeat split; lia.
  - destruct (IH (channel_totals env last c acc)) as (H1 & H2 & H3).
    unfold loop_totals in *. rewrite H1, H2, H3.
    rewrite channel_totals_fetched.
    destruct (fetched env last c) as [|m ms] eqn:Hf; [auto |].
    cbn [map fold_right length add_channel acc_summaries acc_messages
           acc_active].
    rewrite <- app_assoc. cbn [app].
    unfold channel_entry at 2. rewrite Hf.
    rewrite summarize_messages_total.
    repeat split; lia.
Qed.

Lemma filter_listed (chs : list Channel) :
  filter (fun c => match fetched env last c with
                   | [] => false
                   | _ => true
                   end) (filter ch_is_text chs)
  = filter (listed env last) chs.
Proof.
  induction chs as [|c chs IH]; simpl; auto.
  unfold listed at 1.
  destruct (ch_is_text c); simpl; [| exact IH].
  destruct (fetched env last c); [exact IH | now rewrite IH].
Qed.

(** One log entry for each text channel whose fetch raises. *)
Lemma loop_log_length (chs : list Channel) :
  length (loop_log env last (filter ch_is_text chs))
  = length (filter (fetch_fails env last) chs).
Proof.
  induction chs as [|c chs IH]; simpl; auto.
  unfold fetch_fails at 1.
  destruct (ch_is_text c); simpl; [| exact IH].
  rewrite length_app, IH. unfold channel_log.
  now destruct (history env c last) as [l | [what | what]].
Qed.

Lemma lookup_log_spec (guild_id : str) (w : World) :
  log (snd (get_last_summary_timestamp env guild_id w))
  = log w ++ lookup_log env.
Proof.
  unfold lookup_log.
  destruct (db_get_fault env) as [e |] eqn:Hf.
  - now erewrite get_last_summary_timestamp_fault by exact Hf.
  - destruct (watermark w guild_id) as [t |] eqn:Hw.
    + erewrite get_last_summary_timestamp_stored by eassumption.
      simpl. now rewrite app_nil_r.
    + erewrite get_last_summary_timestamp_absent by eassumption.
      simpl. now rewrite app_nil_r.
Qed.

(** The loop consults [history] on its channels only. *)
Lemma loop_same_history
  (h : Channel -> instant -> outcome (list Message)) (chs : list Channel) :
  Forall (fun c => h c last = history env c last) chs ->
  (forall acc, loop_totals (with_history env h) last chs acc
               = loop_totals env last chs acc)
  /\ loop_log (with_history env h) last chs = loop_log env last chs.
Proof.
  induction 1 as [|c chs Hc Hall [IHt IHl]]; [split; reflexivity |].
  split.
  - intros acc. simpl. rewrite <- IHt. f_equal.
    unfold channel_totals. simpl. now rewrite Hc.
  - simpl. rewrite <- IHl. f_equal.
    unfold channel_log. simpl. now rewrite Hc.
Qed.

End RunShape.

(** X9: the summary of a resolved guild in closed form: it lists, in the
    order of the guild's channel list, the text channels whose fetch after
    the lower bound returned at least one message, each with the summary of
    exactly the messages fetched; the message count is the number of
    messages fetched from the listed channels and the active-channel count
    is their number. *)
Theorem guild_summary_closed_form (env : Env) (gid : str) (g : Guild)
  (w : World) :
  get_guild env gid = Returns (Some g) ->
  let last := lower_bound env gid w in
  let shown := filter (listed env last) (g_channels g) in
  exists (d : GuildSummary) (w' : World),
    get_guild_summary env gid w = (Returns (SummaryResult d), w')
    /\ guild_name d = g_name g
    /\ guild_id d = gid
    /\ period_from d = last
    /\ channel_summaries d = map (channel_entry env last) shown
    /\ guild_total_messages d
       = fold_right Z.add 0%Z
           (map (fun c => Z.of_nat (length (fetched env last c))) shown)
    /\ total_channels_with_activity d = Z.of_nat (length shown).
Proof.
  intros Hg last shown.
  destruct (run_resolved env gid w Hg) as (w' & Hrun & _).
  do 2 eexists. split; [exact Hrun |].
  destruct (loop_totals_closed env last
              (filter ch_is_text (g_channels g)) no_totals)
    as (H1 & H2 & H3).
  rewrite filter_listed in H1, H2, H3. fold last.
  cbn [guild_summary_of guild_name guild_id period_from
         channel_summaries guild_total_messages
         total_channels_with_activity].
  rewrite H1, H2, H3. simpl. repeat split; reflexivity.
Qed.

Lemma guild_summary_closed_form_witness :
  exists (d : GuildSummary) (w' : World),
    get_guild_summary sample_env sample_id sample_world
    = (Returns (SummaryResult d), w')
    /\ map channel_name (channel_summaries d) = [py "general"]
    /\ guild_total_messages d = 2%Z.
Proof.
  destruct (@guild_summary_closed_form sample_env sample_id sample_guild
              sample_world)
    as (d & w' & Hrun & _ & _ & _ & Hl & Hm & _).
  - reflexivity.
  - exists d, w'. split; [exact Hrun |]. split.
    + rewrite Hl. vm_compute. reflexivity.
    + rewrite Hm. vm_compute. reflexivity.
Defined.

(** X10: the windows of two successive runs that both resolve the guild
    abut: when the store accepts the write of the first and the read of
    the second, the second run's lower bound is the first run's start
    instant. *)
Theorem windows_abut (first second : Env) (gid : str) (g1 g2 : Guild)
  (w : World) :
  get_guild first gid = Returns (Some g1) -> db_set_fault first = None ->
  get_guild second gid = Returns (Some g2) -> db_get_fault second = None ->
  exists (d1 d2 : GuildSummary) (w1 w2 : World),
    get_guild_summary first gid w = (Returns (SummaryResult d1), w1)
    /\ get_guild_summary second gid w1 = (Returns (SummaryResult d2), w2)
    /\ period_to d1 = run_start first gid w
    /\ period_from d2 = period_to d1.
Proof.
  intros Hg1 Hset Hg2 Hget.
  destruct (run_resolved first gid w Hg1) as (w1 & Hrun1 & Hs1 & _).
  destruct (run_resolved second gid w1 Hg2) as (w2 & Hrun2 & _).
  do 4 eexists. split; [exact Hrun1 |]. split; [exact Hrun2 |].
  split; [reflexivity |]. simpl.
  unfold lower_bound. rewrite lookup_value, Hget.
  unfold watermark. rewrite Hs1.
  now rewrite (commit_store_ok first gid (run_start first gid w) (store w)).
Qed.

Lemma windows_abut_witness :
  exists (d1 d2 : GuildSummary) (w1 w2 : World),
    get_guild_summary sample_env sample_id sample_world
    = (Returns (SummaryResult d1), w1)
    /\ get_guild_summary later_env sample_id w1
       = (Returns (SummaryResult d2), w2)
    /\ period_from d2 = period_to d1.
Proof.
  destruct (@windows_abut sample_env later_env sample_id sample_guild
              sample_guild sample_world)
    as (d1 & d2 & w1 & w2 & H1 & H2 & _ & H3); try reflexivity.
  exists d1, d2, w1, w2. auto.
Defined.

(** A run changes no document but that of its guild. *)
Lemma run_store_frame (env : Env) (gid other : str) (w : World) :
  other <> gid ->
  store (snd (get_guild_summary env gid w)) other = store w other.
Proof.
  intros Hne.
  destruct (get_guild env gid) as [[g |] | e] eqn:Hg.
  - destruct (run_resolved env gid w Hg) as (w' & -> & Hs & _).
    simpl. rewrite Hs. unfold commit_store, store_set.
    destruct (db_set_fault env); [reflexivity |].
    now destruct (str_eq_dec other gid).
  - destruct (run_unresolved env gid w) as (c & w' & -> & _ & Hs & _).
    { intros g. rewrite Hg. discriminate. }
    simpl. now rewrite Hs.
  - destruct (run_unresolved env gid w) as (c & w' & -> & _ & Hs & _).
    { intros g. rewrite Hg. discriminate. }
    simpl. now rewrite Hs.
Qed.

(** A run always returns a result. *)
Lemma run_returns (env : Env) (gid : str) (w : World) :
  exists (r : Result) (w' : World),
    get_guild_summary env gid w = (Returns r, w').
Proof.
  destruct (get_guild env gid) as [[g |] | e] eqn:Hg.
  - destruct (run_resolved env gid w Hg) as (w' & H & _). eauto.
  - destruct (run_unresolved env gid w) as (c & w' & H & _); eauto.
    intros g. rewrite Hg. discriminate.
  - destruct (run_unresolved env gid w) as (c & w' & H & _); eauto.
    intros g. rewrite Hg. discriminate.
Qed.

(** X11: a run for one guild, whatever its outcome, leaves the documents
    and the watermarks of all other guilds as they were. *)
Theorem run_other_guild (env : Env) (gid other : str) (w : World) :
  other <> gid ->
  store (snd (get_guild_summary env gid w)) other = store w other
  /\ watermark (snd (get_guild_summary env gid w)) other
     = watermark w other.
Proof.
  intros Hne.
  pose proof (run_store_frame env w Hne) as Hs.
  split; [exact Hs |]. unfold watermark. now rewrite Hs.
Qed.

Lemma run_other_guild_witness :
  watermark (snd (get_guild_summary sample_env other_id sample_world))
    sample_id
  = Some 100%Z.
Proof.
  rewrite (proj2 (@run_other_guild sample_env other_id sample_id
                    sample_world ltac:(vm_compute; discriminate))).
  reflexivity.
Defined.

(** X12: what a run on a resolved guild logs: an error when the lookup of
    the watermark raised, one entry for each text channel whose fetch
    raised, in channel order, and an error when the write raised; nothing
    else.  A run in which the store answers and every text channel can be
    read logs nothing. *)
Theorem run_log (env : Env) (gid : str) (g : Guild) (w : World) :
  get_guild env gid = Returns (Some g) ->
  let last := lower_bound env gid w in
  let w' := snd (get_guild_summary env gid w) in
  log w'
  = log w ++ lookup_log env
    ++ loop_log env last (filter ch_is_text (g_channels g))
    ++ commit_log env
  /\ length (loop_log env last (filter ch_is_text (g_channels g)))
     = length (filter (fetch_fails env last) (g_channels g))
  /\ (db_get_fault env = None -> db_set_fault env = None ->
      (forall c, In c (g_channels g) -> fetch_fails env last c = false) ->
      log w' = log w).
Proof.
  intros Hg last w'.
  destruct (run_resolved env gid w Hg) as (w1 & Hrun & _ & Hl & _).
  subst w'. rewrite Hrun. simpl. fold last in Hl.
  rewrite lookup_log_spec, <- app_assoc in Hl.
  split; [exact Hl |]. split; [apply loop_log_length |].
  intros Hget Hset Hok. rewrite Hl.
  assert (E : loop_log env last (filter ch_is_text (g_channels g)) = []).
  { apply length_zero_iff_nil. rewrite loop_log_length.
    assert (F : forall l,
               (forall c, In c l -> fetch_fails env last c = false) ->
               filter (fetch_fails env last) l = []).
    { induction l as [|c l IH]; simpl; intros H; auto.
      rewrite (H c) by now left.
      apply IH. intros c' Hc'. apply H. now right. }
    now rewrite (F (g_channels g) Hok). }
  rewrite E. unfold lookup_log, commit_log. rewrite Hget, Hset.
  simpl. now rewrite app_nil_r.
Qed.

Lemma run_log_witness :
  log (snd (get_guild_summary later_env sample_id sample_world)) = [].
Proof.
  apply (proj2 (proj2 (@run_log later_env sample_id sample_guild
                         sample_world eq_refl))); try reflexivity.
  intros c Hc. simpl in Hc.
  destruct Hc as [<- | [<- | [<- | []]]]; reflexivity.
Defined.

(** X13: a run reads the history of the text channels of the guild, with
    the lower bound as [after], and nothing else of it: with any other
    history that answers the same on these, the run returns the same
    result and leaves the same world.  Channels that are not text channels
    are never read. *)
Theorem run_reads_text_channels (env : Env) (gid : str) (g : Guild)
  (w : World) (h : Channel -> instant -> outcome (list Message)) :
  get_guild env gid = Returns (Some g) ->
  (forall c, In c (g_channels g) -> ch_is_text c = true ->
             h c (lower_bound env gid w)
             = history env c (lower_bound env gid w)) ->
  get_guild_summary (with_history env h) gid w
  = get_guild_summary env gid w.
Proof.
  intros Hg Hsame.
  destruct (lower_bound_spec env gid w) as (w1 & Hget & _).
  rewrite (@get_guild_summary_resolved (with_history env h) gid g w Hg).
  rewrite (@get_guild_summary_resolved env gid g w Hg).
  rewrite (@summarize_guild_spec (with_history env h) gid g w _ _ Hget).
  rewrite (@summarize_guild_spec env gid g w _ _ Hget).
  destruct (@loop_same_history env (lower_bound env gid w) h
              (filter ch_is_text (g_channels g))) as [Ht Hl].
  { rewrite Forall_forall. intros c Hc.
    apply filter_In in Hc as [Hin Htext]. now apply Hsame. }
  cbv zeta. rewrite Ht, Hl. reflexivity.
Qed.

Lemma run_reads_text_channels_witness :
  get_guild_summary
    (with_history sample_env
       (fun c after =>
          if (after =? 100)%Z then sample_history c after
          else failing_history c after))
    sample_id sample_world
  = get_guild_summary sample_env sample_id sample_world.
Proof.
  apply (@run_reads_text_channels sample_env sample_id sample_guild
           sample_world).
  - reflexivity.
  - intros c _ _. reflexivity.
Defined.

(** ** [create_summary_embed] *)

Section EmbedFacts.
Variable isoformat : instant -> str.
Variable set_order : list str -> list str.

Lemma fold_add_channel_field (l : list ChannelSummary) (fs : list Field) :
  fold_left add_channel_field l fs = fs ++ channel_fields l.
Proof.
  revert fs. induction l as [|cs l IH]; intros fs; simpl.
  - now rewrite app_nil_r.
  - rewrite IH. unfold add_channel_field.
    destruct (highlights_text (summary cs)); [reflexivity |].
    now rewrite <- app_assoc.
Qed.

(** The fields of the embed of a summary: the overview, the channel fields
    of the first ten channel summaries, and what the keywords add. *)
Lemma embed_fields_shape (d : GuildSummary) :
  embed_fields (create_summary_embed isoformat set_order (SummaryResult d))
  = add_keywords_field set_order d
      (overview_field d :: channel_fields (slice_to 10 (channel_summaries d))).
Proof.
  unfold embed_fields, create_summary_embed. simpl.
  now rewrite fold_add_channel_field, app_nil_r.
Qed.

Lemma add_keywords_field_shape (d : GuildSummary) (fs : list Field) :
  exists kw : list Field,
    add_keywords_field set_order d fs = fs ++ kw /\ length kw <= 1.
Proof.
  unfold add_keywords_field.
  destruct (channel_summaries d);
    [exists []; rewrite app_nil_r; simpl; auto |].
  destruct (set_order (inserted_keywords d));
    [exists []; rewrite app_nil_r; simpl; auto |].
  eexists. split; [reflexivity |]. simpl. lia.
Qed.

Lemma slice_to_nat_length (A : Type) (k : nat) (l : list A) :
  length (slice_to (Z.of_nat k) l) <= k.
Proof.
  pose proof (@slice_to_length A (Z.of_nat k) l). lia.
Qed.

Lemma slice_to_nonempty (A : Type) (k : Z) (x : A) (l : list A) :
  (0 < k)%Z -> slice_to k (x :: l) <> [].
Proof.
  intros Hk. unfold slice_to.
  destruct (0 <=? k)%Z eqn:E; [| apply Z.leb_gt in E; lia].
  destruct (Z.to_nat k) eqn:En; [lia |]. simpl. discriminate.
Qed.

Lemma channel_fields_bounds (l : list ChannelSummary) :
  length (channel_fields l) <= length l
  /\ Forall (fun f => length (field_value f) <= 1024 /\ field_value f <> [])
       (channel_fields l).
Proof.
  induction l as [|cs l [IHn IHf]];
    cbn [channel_fields flat_map length]; [split; [lia | constructor] |].
  fold (channel_fields l).
  destruct (highlights_text (summary cs)) as [|c text] eqn:E;
    cbn [app length].
  - split; [lia | exact IHf].
  - split; [lia |]. constructor; [| exact IHf].
    cbn [channel_field field_value]. split.
    + apply (@slice_to_nat_length N 1024).
    + now apply slice_to_nonempty.
Qed.

Lemma highlights_text_concat (s : Summary) :
  highlights_text s
  = concat (map highlight_line (slice_to 3 (highlights s))).
Proof.
  unfold highlights_text.
  assert (G : forall l acc,
             fold_left (fun text h => text ++ highlight_line h) l acc
             = acc ++ concat (map highlight_line l)).
  { induction l as [|h l IH]; intros acc; simpl.
    - now rewrite app_nil_r.
    - now rewrite IH, <- app_assoc. }
  now rewrite G.
Qed.

Lemma highlights_text_nonempty (s : Summary) :
  highlights s <> [] -> highlights_text s <> [].
Proof.
  intros H. rewrite highlights_text_concat.
  destruct (highlights s) as [|h l]; [congruence |].
  unfold slice_to, highlight_line. simpl. discriminate.
Qed.

Lemma channel_fields_all (l : list ChannelSummary) :
  Forall (fun cs => highlights (summary cs) <> []) l ->
  channel_fields l
  = map (fun cs => channel_field cs (highlights_text (summary cs))) l.
Proof.
  induction 1 as [|cs l Hcs Hl IH]; simpl; [reflexivity |].
  rewrite IH.
  destruct (highlights_text (summary cs)) eqn:E; [| reflexivity].
  now destruct (@highlights_text_nonempty (summary cs) Hcs).
Qed.

End EmbedFacts.

(** X14: the embed of a summary never has more than 12 fields: the
    overview, then at most one field for each of the first ten channel
    summaries, then at most one keywords field.  The value of a channel
    field is never empty and never longer than 1024 characters. *)
Theorem embed_field_bounds (isoformat : instant -> str)
  (set_order : list str -> list str) (d : GuildSummary) :
  exists chan kw : list Field,
    map fields (create_summary_embed isoformat set_order (SummaryResult d))
    = [Some (overview_field d :: chan ++ kw)]
    /\ length chan <= Nat.min 10 (length (channel_summaries d))
    /\ Forall (fun f => length (field_value f) <= 1024
                        /\ field_value f <> []) chan
    /\ length kw <= 1
    /\ length (overview_field d :: chan ++ kw) <= 12.
Proof.
  destruct (add_keywords_field_shape set_order d
              (overview_field d
               :: channel_fields (slice_to 10 (channel_summaries d))))
    as (kw & Hkw & Hlen).
  destruct (channel_fields_bounds (slice_to 10 (channel_summaries d)))
    as [Hn Hf].
  assert (Hs : length (slice_to 10 (channel_summaries d))
               <= Nat.min 10 (length (channel_summaries d))).
  { change (slice_to 10) with (@firstn ChannelSummary 10).
    rewrite length_firstn. lia. }
  exists (channel_fields (slice_to 10 (channel_summaries d))), kw.
  split; [| split; [lia | split; [exact Hf | split; [exact Hlen |]]]].
  - unfold create_summary_embed. cbn [map fields].
    rewrite fold_add_channel_field. cbn [app]. now rewrite Hkw.
  - simpl. rewrite length_app. lia.
Qed.

Section EmbedOfRun.

(** Every channel listed by a run has a highlight. *)
Lemma run_summaries_have_highlights (env : Env) (last : instant)
  (chs : list Channel) :
  Forall (fun cs => highlights (summary cs) <> [])
    (acc_summaries
       (loop_totals env last (filter ch_is_text chs) no_totals)).
Proof.
  destruct (loop_totals_closed env last (filter ch_is_text chs) no_totals)
    as (H & _).
  rewrite H. simpl. rewrite Forall_forall. intros cs Hcs.
  apply in_map_iff in Hcs as (c & <- & Hc).
  apply filter_In in Hc as [_ Hc]. simpl.
  intros E. apply (f_equal (@length Highlight)) in E.
  rewrite highlights_top, length_map, top_messages_exact in E.
  destruct (fetched env last c); [discriminate | simpl in E; lia].
Qed.

Lemma firstn_Forall (A : Type) (P : A -> Prop) (n : nat) (l : list A) :
  Forall P l -> Forall P (firstn n l).
Proof.
  intros H. rewrite Forall_forall in *. intros x Hx.
  apply H. eapply firstn_incl; eassumption.
Qed.

Lemma firstn_NoDup (A : Type) (n : nat) (l : list A) :
  NoDup l -> NoDup (firstn n l).
Proof.
  intros H. rewrite <- (firstn_skipn n l) in H.
  eapply NoDup_app_remove_r; eassumption.
Qed.

End EmbedOfRun.

(** X15: in the embed of the summary a run returns for a resolved guild,
    each of the first ten listed channels has its field, in the order of
    the list: none is dropped for want of highlights, since a listed
    channel has at least one message. *)
Theorem embed_of_run (isoformat : instant -> str)
  (set_order : list str -> list str) (env : Env) (gid : str) (g : Guild)
  (w : World) :
  get_guild env gid = Returns (Some g) ->
  exists (d : GuildSummary) (w' : World) (kw : list Field),
    get_guild_summary env gid w = (Returns (SummaryResult d), w')
    /\ map fields
         (create_summary_embed isoformat set_order (SummaryResult d))
       = [Some (overview_field d
                :: map (fun cs =>
                          channel_field cs (highlights_text (summary cs)))
                     (firstn 10 (channel_summaries d))
                ++ kw)]
    /\ length kw <= 1.
Proof.
  intros Hg.
  destruct (run_resolved env gid w Hg) as (w' & Hrun & _).
  match type of Hrun with
  | _ = (Returns (SummaryResult ?x), _) => set (d := x) in *
  end.
  destruct (add_keywords_field_shape set_order d
              (overview_field d
               :: channel_fields (slice_to 10 (channel_summaries d))))
    as (kw & Hkw & Hlen).
  exists d, w', kw. split; [exact Hrun |]. split; [| exact Hlen].
  unfold create_summary_embed. cbn [map fields].
  rewrite fold_add_channel_field. cbn [app]. rewrite Hkw.
  change (slice_to 10) with (@firstn ChannelSummary 10).
  rewrite channel_fields_all; [reflexivity |].
  apply firstn_Forall. apply run_summaries_have_highlights.
Qed.

Lemma embed_of_run_witness :
  exists (d : GuildSummary) (w' : World) (kw : list Field),
    get_guild_summary sample_env sample_id sample_world
    = (Returns (SummaryResult d), w')
    /\ map fields
         (create_summary_embed sample_isoformat sample_set_order
            (SummaryResult d))
       = [Some (overview_field d
                :: map (fun cs =>
                          channel_field cs (highlights_text (summary cs)))
                     (firstn 10 (channel_summaries d))
                ++ kw)].
Proof.
  destruct (@embed_of_run sample_isoformat sample_set_order sample_env
              sample_id sample_guild sample_world eq_refl)
    as (d & w' & kw & H1 & H2 & _).
  exists d, w', kw. split; assumption.
Defined.

(** X16: the keywords field of an embed.  For any iteration order of the
    set of keywords (one that lists each member once), the embed has no
    keywords field when no channel summary has a keyword; otherwise its
    last field shows between 1 and 10 keywords, pairwise distinct, each a
    keyword of some channel summary: of any of them, not only of the ten
    that have a field. *)
Theorem embed_key_topics (isoformat : instant -> str)
  (set_order : list str -> list str) (d : GuildSummary) :
  (forall l, NoDup (set_order l)) ->
  (forall l x, In x (set_order l) <-> In x l) ->
  let fs :=
    embed_fields
      (create_summary_embed isoformat set_order (SummaryResult d)) in
  let first :=
    overview_field d :: channel_fields (slice_to 10 (channel_summaries d)) in
  (inserted_keywords d = [] -> fs = first)
  /\ (inserted_keywords d <> [] ->
      exists shown : list str,
        fs = first
             ++ [{| field_name := [0x1F511%N] ++ ulit " Key Topics";
                    field_value := u (join (py ", ") shown);
                    field_inline := false |}]
        /\ 1 <= length shown <= 10
        /\ NoDup shown
        /\ forall k, In k shown ->
             exists cs, In cs (channel_summaries d)
                        /\ In k (keywords (summary cs))).
Proof.
  intros Hnd Hin fs first. subst fs. rewrite embed_fields_shape.
  fold first. unfold add_keywords_field.
  split.
  - intros Hnone.
    destruct (channel_summaries d) as [|cs0 rest]; [reflexivity |].
    destruct (set_order (inserted_keywords d)) as [|k l] eqn:E;
      [reflexivity |].
    assert (Hk : In k (inserted_keywords d))
      by (apply Hin; rewrite E; now left).
    rewrite Hnone in Hk. destruct Hk.
  - intros Hsome.
    destruct (channel_summaries d) as [|cs0 rest] eqn:Hcs;
      [exfalso; apply Hsome; unfold inserted_keywords; now rewrite Hcs |].
    destruct (set_order (inserted_keywords d)) as [|k l] eqn:E.
    + destruct (inserted_keywords d) as [|x xs] eqn:Ei; [congruence |].
      assert (Hx : In x (set_order (x :: xs))) by (apply Hin; now left).
      rewrite E in Hx. destruct Hx.
    + exists (slice_to 10 (k :: l)). split; [reflexivity |].
      change (slice_to 10) with (@firstn str 10).
      split; [rewrite length_firstn; cbn [length]; lia |].
      split; [apply firstn_NoDup; rewrite <- E; apply Hnd |].
      intros x Hx. apply firstn_incl in Hx.
      rewrite <- E in Hx. apply (proj1 (Hin _ _)) in Hx.
      unfold inserted_keywords in Hx. rewrite Hcs in Hx.
      apply in_flat_map in Hx as (cs & Hcs' & Hk). eauto.
Qed.

Lemma embed_key_topics_witness :
  embed_fields
    (create_summary_embed sample_isoformat sample_set_order
       (SummaryResult
          (guild_summary_of sample_id sample_guild 100%Z 200%Z no_totals)))
  = [overview_field
       (guild_summary_of sample_id sample_guild 100%Z 200%Z no_totals)].
Proof.
  apply (proj1 (@embed_key_topics sample_isoformat sample_set_order
                  (guild_summary_of sample_id sample_guild 100%Z 200%Z
                     no_totals)
                  (NoDup_nodup str_eq_dec)
                  (fun l x => nodup_In str_eq_dec l x))).
  reflexivity.
Defined.

(** ** The signature check and the interaction handler *)

Section WebFacts.
Variable web : WebEnv.

Lemma compare_digest_true (a b : str) :
  compare_digest a b = Returns true
  <-> a = b /\ forallb is_ascii a = true.
Proof.
  unfold compare_digest.
  destruct (forallb is_ascii a) eqn:Ea; simpl.
  - destruct (forallb is_ascii b) eqn:Eb.
    + destruct (str_eq_dec a b) as [E | E].
      * split; auto.
      * split; [discriminate | intros [H _]; contradiction].
    + split; [discriminate |]. intros [<- _]. congruence.
  - split; [discriminate | intros [_ H]; discriminate].
Qed.

Lemma compare_digest_accepts (a b : str) :
  b = a -> forallb is_ascii b = true -> compare_digest a b = Returns true.
Proof.
  intros -> H. apply compare_digest_true. auto.
Qed.

(** The check returns, changing nothing but the log, and nothing at all
    when it accepts. *)
Lemma verify_returns (body : bytes) (signature timestamp : str) (w : World) :
  exists (b : bool) (w' : World),
    verify_discord_signature web body signature timestamp w
    = (Returns b, w')
    /\ store w' = store w /\ set_calls w' = set_calls w
    /\ clock w' = clock w
    /\ (b = true -> w' = w)
    /\ (b = true <->
        exists key decoded,
          DISCORD_PUBLIC_KEY web = Some key /\ key <> []
          /\ utf8_decode web body = Returns decoded
          /\ signature
             = py "v0="
               ++ hmac_sha256_hexdigest web (utf8_encode web (u key))
                    (utf8_encode web (u timestamp ++ ulit "." ++ decoded))
          /\ forallb is_ascii signature = true).
Proof.
  unfold verify_discord_signature.
  destruct (DISCORD_PUBLIC_KEY web) as [[|c key] |] eqn:Hkey.
  - do 2 eexists. split; [reflexivity |]. simpl.
    repeat split; auto; try discriminate.
    intros (k & d & [= <-] & Hne & _). congruence.
  - unfold try_except, bind, lift, logger_error, ret.
    destruct (utf8_decode web body) as [decoded | e] eqn:Hdec.
    + match goal with
      | |- context [compare_digest ?a ?b] =>
          destruct (compare_digest a b) as [[|] | e] eqn:Hcmp
      end.
      * do 2 eexists. split; [reflexivity |].
        repeat split; auto.
        intros _. apply compare_digest_true in Hcmp as [Heq Hasc].
        exists (c :: key), decoded.
        repeat split; auto; try discriminate. now rewrite <- Heq.
      * do 2 eexists. split; [reflexivity |].
        repeat split; auto; try discriminate.
        intros (k & d & [= <-] & _ & [= <-] & Heq & Hasc).
        pose proof (compare_digest_accepts Heq Hasc) as H.
        pose proof (eq_trans (eq_sym H) Hcmp). discriminate.
      * do 2 eexists. split; [reflexivity |]. simpl.
        repeat split; auto; try discriminate.
        intros (k & d & [= <-] & _ & [= <-] & Heq & Hasc).
        pose proof (compare_digest_accepts Heq Hasc) as H.
        pose proof (eq_trans (eq_sym H) Hcmp). discriminate.
    + do 2 eexists. split; [reflexivity |]. simpl.
      repeat split; auto; try discriminate.
      intros (k & d & _ & _ & Hd & _). congruence.
  - do 2 eexists. split; [reflexivity |]. simpl.
    repeat split; auto; try discriminate.
    intros (k & d & [=] & _).
Qed.

End WebFacts.

(** X17: the signature check never raises and changes neither the store
    nor the clock.  It accepts exactly when the key is set and not empty,
    the body is valid UTF-8 and the signature header is, character for
    character, "v0=" followed by the hex digest of the timestamp, a dot and
    the body under the key, all in ASCII; in every other case it returns
    false. *)
Theorem verify_discord_signature_exact (web : WebEnv) (body : bytes)
  (signature timestamp : str) (w : World) :
  exists (b : bool) (w' : World),
    verify_discord_signature web body signature timestamp w
    = (Returns b, w')
    /\ store w' = store w /\ set_calls w' = set_calls w
    /\ clock w' = clock w
    /\ (b = true <->
        exists key decoded,
          DISCORD_PUBLIC_KEY web = Some key /\ key <> []
          /\ utf8_decode web body = Returns decoded
          /\ signature
             = py "v0="
               ++ hmac_sha256_hexdigest web (utf8_encode web (u key))
                    (utf8_encode web (u timestamp ++ ulit "." ++ decoded))
          /\ forallb is_ascii signature = true).
Proof.
  destruct (verify_returns web body signature timestamp w)
    as (b & w' & H & Hs & Hc & Hk & _ & Hiff).
  exists b, w'. auto.
Qed.

Lemma verify_discord_signature_exact_witness :
  fst (verify_discord_signature sample_web [] (py "v0=0f")
         (py "1700000000") sample_world)
  = Returns true.
Proof.
  destruct (@verify_discord_signature_exact sample_web [] (py "v0=0f")
              (py "1700000000") sample_world)
    as (b & w' & H & _ & _ & _ & Hiff).
  rewrite H. simpl. f_equal. apply Hiff.
  exists (py "secret"), []. repeat split; try reflexivity.
  vm_compute. discriminate.
Defined.

Section HandlerFacts.
Variable web : WebEnv.
Variable env : Env.
Variable isoformat : instant -> str.
Variable set_order : list str -> list str.

(** The outcome of the handler, path by path; [w'] is the world it
    leaves. *)
Lemma handler_paths (request : Request) (w : World) :
  let body := req_body request in
  let signature := header_or_empty (x_signature_ed25519 request) in
  let timestamp := header_or_empty (x_signature_timestamp request) in
  exists (resp : JSONResponse) (w' : World),
    handle_discord_interaction web env isoformat set_order request w
    = (Returns resp, w')
    /\ status_code resp = 200%Z
    /\ ((fst (verify_discord_signature web body signature timestamp w)
         = Returns false
         /\ payload resp
            = Content ([0x274C%N] ++ ulit " An error occurred: "
                       ++ u (invalid_signature_str web))
         /\ store w' = store w /\ set_calls w' = set_calls w)
        \/ (fst (verify_discord_signature web body signature timestamp w)
            = Returns true
            /\ ((exists e, parse_interaction web body = Raises e
                           /\ store w' = store w
                           /\ set_calls w' = set_calls w)
                \/ exists i,
                     parse_interaction web body = Returns i
                     /\ (((i_type i = 1%Z /\ payload resp = Pong
                           \/ i_type i <> 1%Z
                              /\ (i_type i <> 2%Z
                                  \/ exists c, i_data i = Some c
                                               /\ c <> py "summarize")
                              /\ payload resp
                                 = Content (ulit "Unknown command")
                           \/ i_type i = 2%Z
                              /\ i_data i = Some (py "summarize")
                              /\ (i_guild_id i = None
                                  \/ i_guild_id i = Some [])
                              /\ payload resp
                                 = Content
                                     ([0x274C%N]
                                      ++ ulit " This command can only be used in a server!"))
                          /\ w' = w)
                         \/ (i_type i = 2%Z
                             /\ (i_data i = None
                                 \/ i_data i = Some (py "summarize")
                                    /\ (exists gid,
                                          i_guild_id i = Some gid
                                          /\ gid <> [])
                                    /\ exists e,
                                         wait_until_ready web = Raises e)
                             /\ store w' = store w
                             /\ set_calls w' = set_calls w)
                         \/ exists gid r,
                              i_type i = 2%Z
                              /\ i_data i = Some (py "summarize")
                              /\ i_guild_id i = Some gid /\ gid <> []
                              /\ wait_until_ready web = Returns tt
                              /\ get_guild_summary env gid w
                                 = (Returns r, w')
                              /\ payload resp
                                 = Embeds
                                     (create_summary_embed isoformat
                                        set_order r))))).
Proof.
  intros body signature timestamp.
  destruct (verify_returns web body signature timestamp w)
    as (b & w1 & Hv & Hs & Hc & _ & Hsame & _).
  unfold handle_discord_interaction, try_except, bind.
  fold body signature timestamp. rewrite Hv.
  destruct b; cbn [negb fst].
  2: { unfold raise, logger_error, ret. do 2 eexists.
       split; [reflexivity |]. split; [reflexivity |].
       left. simpl. auto. }
  rewrite (Hsame eq_refl) in *. clear Hsame Hs Hc.
  unfold lift.
  destruct (parse_interaction web body) as [i | e] eqn:Hp.
  2: { unfold logger_error, ret. do 2 eexists.
       split; [reflexivity |]. split; [reflexivity |].
       right. split; [reflexivity |]. left. exists e. simpl. auto. }
  destruct (i_type i =? 1)%Z eqn:E1.
  { apply Z.eqb_eq in E1. unfold ret. do 2 eexists.
    split; [reflexivity |]. split; [reflexivity |].
    right. split; [reflexivity |]. right. exists i.
    split; [reflexivity |]. left. split; [| reflexivity]. left. auto. }
  apply Z.eqb_neq in E1.
  destruct (i_type i =? 2)%Z eqn:E2.
  2: { apply Z.eqb_neq in E2. unfold unknown_command, ret. do 2 eexists.
       split; [reflexivity |]. split; [reflexivity |].
       right. split; [reflexivity |]. right. exists i.
       split; [reflexivity |]. left. split; [| reflexivity].
       right. left. auto. }
  apply Z.eqb_eq in E2.
  destruct (i_data i) as [c |] eqn:Hd.
  2: { unfold raise, logger_error, ret. do 2 eexists.
       split; [reflexivity |]. split; [reflexivity |].
       right. split; [reflexivity |]. right. exists i.
       split; [reflexivity |]. right. left. simpl. auto. }
  destruct (str_eq_dec c (py "summarize")) as [-> | Hne].
  2: { unfold unknown_command, ret. do 2 eexists.
       split; [reflexivity |]. split; [reflexivity |].
       right. split; [reflexivity |]. right. exists i.
       split; [reflexivity |]. left. split; [| reflexivity].
       right. left. split; [exact E1 |]. split; [| reflexivity].
       right. exists c. auto. }
  destruct (i_guild_id i) as [[|g0 gid] |] eqn:Hgid.
  1, 3: unfold ret; do 2 eexists;
        (split; [reflexivity |]); (split; [reflexivity |]);
        right; (split; [reflexivity |]); right; exists i;
        (split; [reflexivity |]); left; (split; [| reflexivity]);
        right; right; auto 6.
  destruct (wait_until_ready web) as [[] | e] eqn:Hw.
  2: { unfold logger_error, ret. do 2 eexists.
       split; [reflexivity |]. split; [reflexivity |].
       right. split; [reflexivity |]. right. exists i.
       split; [reflexivity |]. right. left. simpl.
       split; [exact E2 |]. split; [| auto]. right.
       split; [assumption |]. split; [| eauto].
       exists (g0 :: gid). split; [assumption | discriminate]. }
  destruct (run_returns env (g0 :: gid) w) as (r & w' & Hrun).
  rewrite Hrun. unfold ret. do 2 eexists.
  split; [reflexivity |]. split; [reflexivity |].
  right. split; [reflexivity |]. right. exists i.
  split; [reflexivity |]. right. right. exists (g0 :: gid), r.
  repeat split; auto. discriminate.
Qed.

End HandlerFacts.

Section ResponseFacts.

Lemma response_eta (resp : JSONResponse) (p : Payload) :
  status_code resp = 200%Z -> payload resp = p -> resp = json_response p.
Proof. destruct resp. simpl. now intros -> ->. Qed.

End ResponseFacts.

(** X18: the handler never raises and always answers with status 200.  A
    request whose signature the check rejects is answered in-band, with the
    message "An error occurred" followed by the text of the 401 exception,
    which the handler's own [except] catches; the body is not parsed and
    neither the store nor the record of writes changes. *)
Theorem handler_contains_errors (web : WebEnv) (env : Env)
  (isoformat : instant -> str) (set_order : list str -> list str)
  (request : Request) (w : World) :
  exists (resp : JSONResponse) (w' : World),
    handle_discord_interaction web env isoformat set_order request w
    = (Returns resp, w')
    /\ status_code resp = 200%Z
    /\ (fst (verify_discord_signature web (req_body request)
               (header_or_empty (x_signature_ed25519 request))
               (header_or_empty (x_signature_timestamp request)) w)
        = Returns false ->
        payload resp
        = Content ([0x274C%N] ++ ulit " An error occurred: "
                   ++ u (invalid_signature_str web))
        /\ store w' = store w /\ set_calls w' = set_calls w).
Proof.
  destruct (handler_paths web env isoformat set_order request w)
    as (resp & w' & Hrun & Hst & Hcases).
  exists resp, w'. split; [exact Hrun |]. split; [exact Hst |].
  intros Hfalse.
  destruct Hcases as [(_ & Hp & Hs & Hc) | (Htrue & _)]; [auto |].
  rewrite Hfalse in Htrue. discriminate.
Qed.

Lemma handler_contains_errors_witness :
  exists (resp : JSONResponse) (w' : World),
    handle_discord_interaction sample_web sample_env sample_isoformat
      sample_set_order unsigned_request sample_world
    = (Returns resp, w')
    /\ payload resp
       = Content ([0x274C%N] ++ ulit " An error occurred: "
                  ++ ulit "401: Invalid signature")
    /\ store w' = store sample_world.
Proof.
  destruct (@handler_contains_errors sample_web sample_env sample_isoformat
              sample_set_order unsigned_request sample_world)
    as (resp & w' & Hrun & _ & H).
  exists resp, w'. split; [exact Hrun |].
  destruct H as (Hp & Hs & _); [reflexivity |]. auto.
Defined.

(** X19: a request changes the watermark of a guild only if its signature
    is accepted, its body parses to a "summarize" command (type 2) sent from
    that very guild, and the bot is ready: no other request, and no request
    for another guild, moves the watermark. *)
Theorem watermark_moves_only_on_summarize (web : WebEnv) (env : Env)
  (isoformat : instant -> str) (set_order : list str -> list str)
  (request : Request) (w : World) (gid : str) :
  watermark
    (snd (handle_discord_interaction web env isoformat set_order request w))
    gid
  <> watermark w gid ->
  fst (verify_discord_signature web (req_body request)
         (header_or_empty (x_signature_ed25519 request))
         (header_or_empty (x_signature_timestamp request)) w)
  = Returns true
  /\ exists i,
       parse_interaction web (req_body request) = Returns i
       /\ i_type i = 2%Z
       /\ i_data i = Some (py "summarize")
       /\ i_guild_id i = Some gid
       /\ wait_until_ready web = Returns tt.
Proof.
  intros Hmoved.
  destruct (handler_paths web env isoformat set_order request w)
    as (resp & w' & Hrun & _ & Hcases).
  rewrite Hrun in Hmoved. simpl in Hmoved.
  assert (Hkeep : store w' = store w -> False).
  { intros Hs. apply Hmoved. unfold watermark. now rewrite Hs. }
  destruct Hcases as [(_ & _ & Hs & _) | (Htrue & Hcases)];
    [now destruct (Hkeep Hs) |].
  split; [exact Htrue |].
  destruct Hcases as [(e & _ & Hs & _) | (i & Hp & Hcases)];
    [now destruct (Hkeep Hs) |].
  exists i. split; [exact Hp |].
  destruct Hcases
    as [(_ & ->) | [(_ & _ & Hs & _)
                   | (g & r & H2 & Hd & Hg & _ & Hw & Hrun' & _)]].
  - now destruct (Hkeep eq_refl).
  - now destruct (Hkeep Hs).
  - destruct (str_eq_dec gid g) as [<- | Hne]; [auto |].
    exfalso. apply Hmoved. unfold watermark.
    pose proof (run_store_frame env w Hne) as Hf.
    rewrite Hrun' in Hf. simpl in Hf. now rewrite Hf.
Qed.

Lemma watermark_moves_only_on_summarize_witness :
  exists i,
    parse_interaction sample_web (req_body signed_request) = Returns i
    /\ i_guild_id i = Some sample_id.
Proof.
  destruct (@watermark_moves_only_on_summarize sample_web sample_env
              sample_isoformat sample_set_order signed_request sample_world
              sample_id)
    as (_ & i & Hp & _ & _ & Hg & _).
  - vm_compute. discriminate.
  - exists i. auto.
Defined.

(** X20: a "summarize" command with an accepted signature, sent from a
    guild, once the bot is ready, is answered with the embed of the result
    of the run for that guild, and leaves the world the run leaves.  When
    the platform does not know the guild the answer is the error embed that
    says "Guild not found", and the store is unchanged. *)
Theorem handler_summarize (web : WebEnv) (env : Env)
  (isoformat : instant -> str) (set_order : list str -> list str)
  (request : Request) (w : World) (i : DiscordInteraction) (gid : str) :
  fst (verify_discord_signature web (req_body request)
         (header_or_empty (x_signature_ed25519 request))
         (header_or_empty (x_signature_timestamp request)) w)
  = Returns true ->
  parse_interaction web (req_body request) = Returns i ->
  i_type i = 2%Z -> i_data i = Some (py "summarize") ->
  i_guild_id i = Some gid -> gid <> [] ->
  wait_until_ready web = Returns tt ->
  exists (r : Result) (w' : World),
    get_guild_summary env gid w = (Returns r, w')
    /\ handle_discord_interaction web env isoformat set_order request w
       = (Returns
            (json_response
               (Embeds (create_summary_embed isoformat set_order r))),
          w')
    /\ (get_guild env gid = Returns None ->
        create_summary_embed isoformat set_order r
        = [{| title := [0x274C%N] ++ ulit " Summary Error";
              description := ulit "Guild not found";
              color := 16711680;
              fields := None |}]
        /\ w' = w).
Proof.
  intros Hv Hp H2 Hd Hg Hne Hw.
  destruct (handler_paths web env isoformat set_order request w)
    as (resp & w' & Hrun & Hst & Hcases).
  destruct Hcases as [(Hfalse & _) | (_ & Hcases)]; [congruence |].
  destruct Hcases as [(e & He & _) | (i' & Hp' & Hcases)]; [congruence |].
  assert (i' = i) by congruence. subst i'.
  destruct Hcases
    as [([(H1 & _) | [(_ & Hother & _) | (_ & _ & Hnone & _)]] & _)
       | [(_ & Hbad & _)
         | (g & r & _ & _ & Hg' & _ & _ & Hrun' & Hpay)]].
  - lia.
  - destruct Hother as [H | (c & Hc & Hcne)]; congruence.
  - destruct Hnone as [H | H]; congruence.
  - destruct Hbad as [H | (_ & _ & e & He)]; congruence.
  - assert (g = gid) by congruence. subst g.
    exists r, w'. split; [exact Hrun' |].
    split; [now rewrite Hrun, (@response_eta _ _ Hst Hpay) |].
    intros Hunknown.
    destruct (run_unresolved env gid w)
      as (cause & w2 & Hrun2 & _ & _ & _ & Hcause & _).
    { intros g0. rewrite Hunknown. discriminate. }
    rewrite Hrun' in Hrun2. injection Hrun2 as -> ->.
    destruct (Hcause Hunknown) as [-> ->]. split; reflexivity.
Qed.

Lemma handler_summarize_witness :
  exists (r : Result) (w' : World),
    get_guild_summary sample_env sample_id sample_world = (Returns r, w')
    /\ handle_discord_interaction sample_web sample_env sample_isoformat
         sample_set_order signed_request sample_world
       = (Returns
            (json_response
               (Embeds
                  (create_summary_embed sample_isoformat sample_set_order
                     r))),
          w').
Proof.
  destruct (@handler_summarize sample_web sample_env sample_isoformat
              sample_set_order signed_request sample_world
              {| i_type := 2; i_data := Some (py "summarize");
                 i_guild_id := Some sample_id |}
              sample_id)
    as (r & w' & H1 & H2 & _); try reflexivity.
  - vm_compute. discriminate.
  - exists r, w'. auto.
Defined.

(** X21: with an accepted signature, a ping (type 1) is answered with a
    pong, a "summarize" command sent outside a guild with the notice that
    the command needs a server, and any other type or command name with
    "Unknown command"; none of these changes the world: nothing is logged,
    read from the store or written. *)
Theorem handler_without_effect (web : WebEnv) (env : Env)
  (isoformat : instant -> str) (set_order : list str -> list str)
  (request : Request) (w : World) (i : DiscordInteraction) :
  fst (verify_discord_signature web (req_body request)
         (header_or_empty (x_signature_ed25519 request))
         (header_or_empty (x_signature_timestamp request)) w)
  = Returns true ->
  parse_interaction web (req_body request) = Returns i ->
  let answer := handle_discord_interaction web env isoformat set_order
                  request w in
  (i_type i = 1%Z -> answer = (Returns (json_response Pong), w))
  /\ (i_type i = 2%Z -> i_data i = Some (py "summarize") ->
      i_guild_id i = None \/ i_guild_id i = Some [] ->
      answer
      = (Returns
           (json_response
              (Content
                 ([0x274C%N]
                  ++ ulit " This command can only be used in a server!"))),
         w))
  /\ (i_type i <> 1%Z ->
      i_type i <> 2%Z
      \/ (exists c, i_data i = Some c /\ c <> py "summarize") ->
      answer
      = (Returns (json_response (Content (ulit "Unknown command"))), w)).
Proof.
  intros Hv Hp answer. subst answer.
  destruct (handler_paths web env isoformat set_order request w)
    as (resp & w' & Hrun & Hst & Hcases).
  rewrite Hrun.
  destruct Hcases as [(Hfalse & _) | (_ & Hcases)]; [congruence |].
  destruct Hcases as [(e & He & _) | (i' & Hp' & Hcases)]; [congruence |].
  assert (i' = i) by congruence. subst i'.
  destruct Hcases
    as [([(H1 & Hpay) | [(Hn1 & Hother & Hpay)
                        | (H2 & Hd & Hnone & Hpay)]] & ->)
       | [(H2 & Hbad & _)
         | (g & r & H2 & Hd & Hg & Hne & _)]].
  - split; [| split].
    + intros _. now rewrite (@response_eta _ _ Hst Hpay).
    + intros H. lia.
    + intros H. contradiction.
  - split; [| split].
    + intros H. contradiction.
    + intros H2 Hd _.
      destruct Hother as [H | (c & Hc & Hcne)]; congruence.
    + intros _ _. now rewrite (@response_eta _ _ Hst Hpay).
  - split; [| split].
    + intros H. lia.
    + intros _ _ _. now rewrite (@response_eta _ _ Hst Hpay).
    + intros _ [H | (c & Hc & Hcne)]; congruence.
  - split; [| split].
    + intros H. lia.
    + intros _ Hd Hn.
      destruct Hbad as [H | (_ & (g & Hg & Hgne) & _)]; [congruence |].
      destruct Hn; congruence.
    + intros _ [H | (c & Hc & Hcne)]; [contradiction |].
      destruct Hbad as [H | (Hd & _)]; congruence.
  - split; [| split].
    + intros H. lia.
    + intros _ _ [H | H]; congruence.
    + intros _ [H | (c & Hc & Hcne)]; congruence.
Qed.

Lemma handler_without_effect_witness :
  handle_discord_interaction ping_web sample_env sample_isoformat
    sample_set_order signed_request sample_world
  = (Returns (json_response Pong), sample_world).
Proof.
  apply (proj1 (@handler_without_effect ping_web sample_env sample_isoformat
                  sample_set_order signed_request sample_world
                  {| i_type := 1; i_data := None; i_guild_id := None |}
                  eq_refl eq_refl)).
  reflexivity.
Defined.
